(** * msgboard: the browser client of the message board

    A shallow embedding of the client scripts of the repository:

    - [src/web/app.js]: presigned upload, then a full refetch of the list
      (module [Web]);
    - [src/unnamed/part_000], lines 1-47 and 169-216: the two multipart
      variants (module [Multipart]);
    - [src/unnamed/part_000], lines 48-168: presigned upload, then a local
      prepend of the created post (module [Prepend]).

    Strings are [String.string], read as the UTF-8 bytes of the JavaScript
    string.  The only characters the scripts inspect are ASCII ones, and no
    byte of a multi-byte UTF-8 sequence is below 128, so working on bytes
    agrees with working on code units for every well-formed string. *)

From Stdlib Require Import String Ascii ZArith List Bool Lia DecimalString.
Import ListNotations.
Local Open Scope string_scope.
Local Open Scope Z_scope.

(** ** Characters that a Rocq literal cannot hold *)

Definition dq_char : ascii := ascii_of_nat 34.
Definition nl_char : ascii := ascii_of_nat 10.
Definition dq : string := String dq_char "".
Definition nl : string := String nl_char "".

(** ** JavaScript primitives used by the scripts *)

(** [Number::toString] on an integer value (post ids, HTTP statuses, file
    sizes): the decimal numeral, with a leading minus sign when negative.
    This is what JavaScript prints for the integers that a number holds
    exactly, those of magnitude up to 2^53; larger ones are outside the
    model. *)
Definition Number_toString (n : Z) : string :=
  NilEmpty.string_of_int (Z.to_int n).

(** [ToBoolean] on a string: only the empty string is falsy. *)
Definition truthy (s : string) : bool :=
  match s with
  | EmptyString => false
  | String _ _ => true
  end.

(** [a || b] on strings. *)
Definition or_else (a b : string) : string :=
  if truthy a then a else b.

(** Property lookup [obj[m]] in an object literal whose keys and values are
    strings, the literal being listed in source order. *)
Fixpoint lookup (obj : list (string * string)) (m : string) : option string :=
  match obj with
  | [] => None
  | (k, v) :: rest => if String.eqb k m then Some v else lookup rest m
  end.

(** [s.replace(/[...]/g, fn)] for a character class: every character of the
    class is a match on its own, matches never overlap, and whatever is not
    matched is copied.  [fn] receives the matched text; a callback that
    returns [undefined] contributes the text [undefined]. *)
Fixpoint replace_class (cls : ascii -> bool) (fn : string -> option string)
    (s : string) : string :=
  match s with
  | EmptyString => EmptyString
  | String c rest =>
      (if cls c
       then match fn (String c "") with
            | Some r => r
            | None => "undefined"
            end
       else String c "")
      ++ replace_class cls fn rest
  end.

(** ** [preventXSS] (app.js 6-14; part_000 4-12, 51-59, 172-180) *)

(** The object literal of the callback. *)
Definition entities : list (string * string) :=
  [ ("&", "&amp;");
    ("<", "&lt;");
    (">", "&gt;");
    (dq, "&quot;");
    ("'", "&#39;") ].

(** The character class of the regular expression: ampersand, less-than,
    greater-than, double quote and apostrophe. *)
Definition xss_class (c : ascii) : bool :=
  Ascii.eqb c "&" || Ascii.eqb c "<" || Ascii.eqb c ">"
  || Ascii.eqb c dq_char || Ascii.eqb c "'".

Definition preventXSS (s : string) : string :=
  replace_class xss_class (fun m => lookup entities m) s.

(** The substitution table as the specification words it: a character of the
    five goes to its entity, any other character stays. *)
Definition spec_escape (c : ascii) : string :=
  if Ascii.eqb c "&" then "&amp;"
  else if Ascii.eqb c "<" then "&lt;"
  else if Ascii.eqb c ">" then "&gt;"
  else if Ascii.eqb c dq_char then "&quot;"
  else if Ascii.eqb c "'" then "&#39;"
  else String c "".

Fixpoint spec_escape_all (s : string) : string :=
  match s with
  | EmptyString => EmptyString
  | String c rest => spec_escape c ++ spec_escape_all rest
  end.

(** ** Posts and their rendered block *)

(** A post as the backend returns it (comment of app.js 23):
    [{ id, message, image_url, created_at }], [image_url] being a string or
    [null]. *)
Record post := mkPost {
  id : Z;
  message : string;
  image_url : option string;
  created_at : string
}.

(** The inner template literal, the [img] element around [p.image_url]. *)
Definition img_tag (u : string) : string :=
  "<img src=" ++ dq ++ u ++ dq ++ " alt=" ++ dq ++ "image" ++ dq ++ ">".

(** [p.image_url ? `<img ...>` : empty] *)
Definition img_part (p : post) : string :=
  match image_url p with
  | Some u => if truthy u then img_tag u else ""
  | None => ""
  end.

(** The template literal of app.js 24-30, which is the same text in
    part_000 22-28, 63-69, 82-88 and 190-196, line breaks and indentation
    included. *)
Definition render_post (p : post) : string :=
  nl ++ "    <div class=" ++ dq ++ "post" ++ dq ++ ">" ++ nl
  ++ "      <h3>" ++ preventXSS (message p) ++ "</h3>" ++ nl
  ++ "      " ++ img_part p ++ nl
  ++ "      <div class=" ++ dq ++ "meta" ++ dq ++ ">#"
  ++ Number_toString (id p) ++ " · " ++ created_at p ++ "</div>" ++ nl
  ++ "    </div>" ++ nl
  ++ "  ".

(** [data.map(p => `...`).join(empty)] *)
Definition render_posts (data : list post) : string :=
  String.concat "" (map render_post data).

(** [t] occurs in [s] as a contiguous run of characters. *)
Definition occurs_in (t s : string) : Prop :=
  exists pre suf, s = pre ++ t ++ suf.

(** The character [c] is one of the characters of [s]. *)
Fixpoint has_char (c : ascii) (s : string) : bool :=
  match s with
  | EmptyString => false
  | String d rest => Ascii.eqb c d || has_char c rest
  end.

(** ** [String.prototype.trim]

    White space and line terminators of ECMAScript, in their UTF-8
    encodings: one byte (tab, line feed, vertical tab, form feed, carriage
    return, space), two bytes (U+00A0) or three bytes (U+1680, U+2000 to
    U+200A, U+2028, U+2029, U+202F, U+205F, U+3000, U+FEFF). *)

Definition code (a : ascii) : nat := nat_of_ascii a.

Definition ws1 (a : ascii) : bool :=
  ((9 <=? code a) && (code a <=? 13))%nat || (code a =? 32)%nat.

Definition ws2 (a b : ascii) : bool :=
  ((code a =? 194) && (code b =? 160))%nat.

Definition ws3 (a b c : ascii) : bool :=
  ((code a =? 225) && (code b =? 154) && (code c =? 128)
   || (code a =? 226) && (code b =? 128)
      && (((128 <=? code c) && (code c <=? 138))
          || (code c =? 168) || (code c =? 169) || (code c =? 175))
   || (code a =? 226) && (code b =? 129) && (code c =? 159)
   || (code a =? 227) && (code b =? 128) && (code c =? 128)
   || (code a =? 239) && (code b =? 187) && (code c =? 191))%nat.

(** Drops leading white space.  With [flip] set the bytes of each character
    are expected last byte first, which is how they arrive when the string
    is read from its end. *)
Fixpoint drop_ws (flip : bool) (s : string) : string :=
  match s with
  | String a r1 =>
      if ws1 a then drop_ws flip r1
      else
        match r1 with
        | String b r2 =>
            if (if flip then ws2 b a else ws2 a b) then drop_ws flip r2
            else
              match r2 with
              | String c r3 =>
                  if (if flip then ws3 c b a else ws3 a b c)
                  then drop_ws flip r3
                  else s
              | EmptyString => s
              end
        | EmptyString => s
        end
  | EmptyString => s
  end.

Definition reverse (s : string) : string :=
  string_of_list_ascii (rev (list_ascii_of_string s)).

Definition trimStart (s : string) : string := drop_ws false s.
Definition trimEnd (s : string) : string := reverse (drop_ws true (reverse s)).
Definition trim (s : string) : string := trimEnd (trimStart s).

(** ** The page, the network and the effects of a script *)

(** A [File] of the file input: [file.name], [file.type], [file.size]. *)
Record file := mkFile {
  name : string;
  type : string;
  size : Z
}.

(** The upload descriptor that the presign endpoint answers with:
    [presignData.url], [presignData.fields], [presignData.key].  [fields] is
    an object with string values, given by its own properties in
    enumeration order, which is what [Object.entries] returns. *)
Record descriptor := mkDescriptor {
  url : string;
  fields : list (string * string);
  key : string
}.

(** The object literals handed to [JSON.stringify]: their properties in
    source order, each holding [null], a number or a string. *)
Inductive jvalue : Type :=
| JNull
| JNum (n : Z)
| JStr (s : string).

Definition json := list (string * jvalue).

(** An entry value of a [FormData]: a string or a file. *)
Inductive form_value : Type :=
| Text (s : string)
| Blob (f : file).

Definition FormData := list (string * form_value).

(** [fd.append(k, v)] *)
Definition FormData_append (fd : FormData) (k : string) (v : form_value) : FormData :=
  (fd ++ [(k, v)])%list.

Inductive body : Type :=
| NoBody
| JsonBody (v : json)
| FormBody (fd : FormData).

(** The arguments of one [fetch] call. *)
Record request := mkRequest {
  req_url : string;
  req_method : string;
  req_headers : list (string * string);
  req_body : body
}.

(** What reading a response body as a value of some shape gives: the value,
    or the message of the exception raised on the way (by [res.json()] on
    text that is not JSON, or by the first use of a value that lacks the
    shape).  In both cases the exception comes before any further effect of
    the script.  Bodies that have a part of the shape only are not
    modelled. *)
Inductive reading (A : Type) : Type :=
| Fails (msg : string)
| Reads (a : A).
Arguments Fails {A} msg.
Arguments Reads {A} a.

(** A [Response]: [res.status], [await res.text()], and [await res.json()]
    read as the envelope [{ data: [...] }] of the list, as an upload
    descriptor, or as a single post. *)
Record response := mkResponse {
  status : Z;
  text : string;
  as_envelope : reading (list post);
  as_descriptor : reading descriptor;
  as_post : reading post
}.

(** [res.ok]: the status is in the range 200-299. *)
Definition ok (r : response) : bool := (200 <=? status r) && (status r <=? 299).

(** How a [fetch] settles: the promise rejects (network failure; the
    message is the engine's) or resolves to a response. *)
Inductive settled : Type :=
| Rejects (msg : string)
| Resolves (r : response).

(** The world outside the page: how a request settles, given the requests
    issued before it, oldest first. *)
Definition world := list request -> request -> settled.

Inductive event : Type :=
| Fetch (rq : request)
| Alert (msg : string).

(** The page: the textarea and file input of [#form], its button, the
    content of [#list] as the markup fragments it was built from, oldest
    insertion last, and the effects observed so far, oldest first. *)
Record page := mkPage {
  textarea : string;
  files : list file;
  disabled : bool;
  list_view : list string;
  log : list event
}.

Fixpoint requests (l : list event) : list request :=
  match l with
  | [] => []
  | Fetch rq :: rest => rq :: requests rest
  | Alert _ :: rest => requests rest
  end.

Fixpoint alerts (l : list event) : list string :=
  match l with
  | [] => []
  | Fetch _ :: rest => alerts rest
  | Alert m :: rest => m :: alerts rest
  end.

(** A completed computation returns a value or throws an [Error], which is
    identified with its [message]. *)
Inductive completion (A : Type) : Type :=
| Return (a : A)
| Throw (msg : string).
Arguments Return {A} a.
Arguments Throw {A} msg.

Definition M (A : Type) : Type := world -> page -> completion A * page.

Definition ret {A} (a : A) : M A := fun _ st => (Return a, st).

Definition bind {A B} (m : M A) (k : A -> M B) : M B :=
  fun w st =>
    match m w st with
    | (Return a, st1) => k a w st1
    | (Throw e, st1) => (Throw e, st1)
    end.

Declare Scope js_scope.
Delimit Scope js_scope with js.
Notation "x <- m ;; k" := (bind m (fun x => k))
  (at level 100, m at next level, right associativity) : js_scope.
Notation "m ;;; k" := (bind m (fun _ => k))
  (at level 100, right associativity) : js_scope.
Local Open Scope js_scope.

(** [throw new Error(msg)] *)
Definition throw {A} (msg : string) : M A := fun _ st => (Throw msg, st).

(** [try { body } catch (err) { handler(err.message) } finally { fin }] *)
Definition try_catch_finally {A} (body : M A) (handler : string -> M A)
    (fin : M unit) : M A :=
  fun w st =>
    let '(c, st1) :=
      match body w st with
      | (Throw e, st1) => handler e w st1
      | done => done
      end in
    match fin w st1 with
    | (Return _, st2) => (c, st2)
    | (Throw e, st2) => (Throw e, st2)
    end.

Definition record (ev : event) (st : page) : page :=
  mkPage (textarea st) (files st) (disabled st) (list_view st)
    (log st ++ [ev])%list.

(** [await fetch(url, init)] *)
Definition fetch (rq : request) : M response :=
  fun w st =>
    match w (requests (log st)) rq with
    | Rejects msg => (Throw msg, record (Fetch rq) st)
    | Resolves r => (Return r, record (Fetch rq) st)
    end.

(** [fetch(url)] with no [init]. *)
Definition GET (u : string) : request := mkRequest u "GET" [] NoBody.

(** [fetch(url, { method: POST, headers: { Content-Type: application/json },
    body: JSON.stringify(v) })] *)
Definition POST_json (u : string) (v : json) : request :=
  mkRequest u "POST" [("Content-Type", "application/json")] (JsonBody v).

(** [fetch(url, { method: POST, body: fd })] *)
Definition POST_form (u : string) (fd : FormData) : request :=
  mkRequest u "POST" [] (FormBody fd).

(** [await res.json()], read at the shape the caller uses. *)
Definition read {A} (r : reading A) : M A :=
  match r with
  | Fails msg => throw msg
  | Reads a => ret a
  end.

(** [alert(msg)] *)
Definition alert (msg : string) : M unit :=
  fun _ st => (Return tt, record (Alert msg) st).

(** [btn.disabled = b] *)
Definition set_disabled (b : bool) : M unit :=
  fun _ st =>
    (Return tt, mkPage (textarea st) (files st) b (list_view st) (log st)).

(** [list.innerHTML = html]: the children of the list are replaced by what
    [html] parses to. *)
Definition set_innerHTML (html : string) : M unit :=
  fun _ st =>
    (Return tt, mkPage (textarea st) (files st) (disabled st) [html] (log st)).

(** [list.insertAdjacentHTML(afterbegin, html)]: what [html] parses to is
    inserted before the first child, the children themselves are left as
    they are. *)
Definition insertAdjacentHTML_afterbegin (html : string) : M unit :=
  fun _ st =>
    (Return tt,
     mkPage (textarea st) (files st) (disabled st) (html :: list_view st)
       (log st)).

(** [form.querySelector(textarea[name=message]).value.trim()] *)
Definition read_message : M string :=
  fun _ st => (Return (trim (textarea st)), st).

(** [form.querySelector(input[name=image]).files[0]], [undefined] when no
    file is selected. *)
Definition read_file : M (option file) :=
  fun _ st => (Return (hd_error (files st)), st).

(** Modelled from the spec: the markup of the page is not under src, so the
    default value of the textarea is taken from the spec and from the
    comment of app.js 97: resetting the form leaves the text empty and no
    file selected. *)
Definition form_reset : M unit :=
  fun _ st =>
    (Return tt, mkPage "" [] (disabled st) (list_view st) (log st)).

(** A call [f()] of an async function whose promise nobody awaits, as the
    last thing its caller does: the effects of [f] take place, its outcome
    (a value or an exception) reaches no one.  What other handlers could do
    between the steps of [f] is not modelled. *)
Definition detach (m : M unit) : M unit :=
  fun w st => (Return tt, snd (m w st)).

(** ** The functions of the scripts

    The three scripts share their text up to the address of the backend,
    the placeholder of a failed fetch and what follows a successful
    registration; the shared text is written once, over these. *)

(** The placeholder of app.js 19 (also part_000 77 and 185). *)
Definition placeholder_block : string :=
  "<div class=" ++ dq ++ "post" ++ dq ++ ">無法取得貼文</div>".

(** The placeholder of part_000 17. *)
Definition placeholder_text : string := "無法取得貼文".

Section Script.

(** What is put before the paths of the presign and registration
    requests: [API_BASE] in app.js, nothing in part_000. *)
Variable base : string.

(** The markup shown when the list cannot be fetched. *)
Variable placeholder : string.

(** getPosts (app.js 16-31; part_000 14-29, 74-89, 182-197).  The path
    is relative in every script. *)
Definition getPosts_with : M unit :=
  res <- fetch (GET "/api/posts") ;;
  if negb (ok res) then
    set_innerHTML placeholder
  else
    data <- read (as_envelope res) ;;
    set_innerHTML (render_posts data).

(** The body of the presign request (app.js 38-42; part_000 96-100). *)
Definition presign_body (f : file) : json :=
  [ ("filename", JStr (name f));
    ("content_type", JStr (or_else (type f) "application/octet-stream"));
    ("size", JNum (size f)) ].

Definition presign_request (f : file) : request :=
  POST_json (base ++ "/api/presign") (presign_body f).

(** presign (app.js 34-48; part_000 92-106) *)
Definition presign_at (f : file) : M descriptor :=
  res <- fetch (presign_request f) ;;
  if negb (ok res) then
    throw (text res)
  else
    read (as_descriptor res).

(** The form of the upload (app.js 52-56; part_000 110-115): one entry
    per entry of [presignData.fields], then the file. *)
Definition upload_form (presignData : descriptor) (f : file) : FormData :=
  let fd :=
    fold_left (fun fd kv => FormData_append fd (fst kv) (Text (snd kv)))
      (fields presignData) [] in
  FormData_append fd "file" (Blob f).

Definition upload_request (presignData : descriptor) (f : file) : request :=
  POST_form (url presignData) (upload_form presignData f).

(** uploadToS3 (app.js 51-64; part_000 109-123) *)
Definition uploadToS3 (presignData : descriptor) (f : file) : M unit :=
  r <- fetch (upload_request presignData f) ;;
  if negb (ok r) then
    throw ("上傳到 S3 失敗: " ++ Number_toString (status r))
  else
    ret tt.

(** The body of the registration request (app.js 89-92; part_000
    149-152). *)
Definition register_body (message : string) (image_key : jvalue) : json :=
  [ ("message", JStr message); ("image_key", image_key) ].

Definition register_request (message : string) (image_key : jvalue)
  : request :=
  POST_json (base ++ "/api/posts") (register_body message image_key).

(** The text of the alert of the [catch] clause. *)
Definition alert_text (err : string) : string := "上傳失敗: " ++ err.

(** What the handler does once the registration has answered with a
    success status. *)
Variable after : response -> M unit.

(** The submit handler (app.js 67-104; part_000 126-166).
    [e.preventDefault()] has no effect on the page and is left out. *)
Definition onSubmit_with : M unit :=
  message <- read_message ;;
  file <- read_file ;;
  set_disabled true ;;;
  try_catch_finally
    (image_key <-
       match file with
       | Some f =>
           presignData <- presign_at f ;;
           uploadToS3 presignData f ;;;
           ret (JStr (key presignData))
       | None => ret JNull
       end ;;
     res <- fetch (register_request message image_key) ;;
     if negb (ok res) then throw (text res) else after res)
    (fun err => alert (alert_text err))
    (set_disabled false).

End Script.

(** prependPost (part_000 62-72) *)
Definition prependPost (p : post) : M unit :=
  let html := render_post p in
  insertAdjacentHTML_afterbegin html.

(** *** src/web/app.js *)
Module Web.

Definition API_BASE : string := "http://localhost:8000".

Definition getPosts : M unit := getPosts_with placeholder_block.

Definition presign (f : file) : M descriptor := presign_at API_BASE f.

(** app.js 97-98: [form.reset(); await getPosts();] *)
Definition onSubmit : M unit :=
  onSubmit_with API_BASE (fun _ => form_reset ;;; getPosts).

(** app.js 107: the call [getPosts();] that ends the script. *)
Definition onLoad : M unit := detach getPosts.

End Web.

(** *** src/unnamed/part_000, lines 48-168 *)
Module Prepend.

Definition getPosts : M unit := getPosts_with placeholder_block.

Definition presign (f : file) : M descriptor := presign_at "" f.

(** part_000 157-160:
    [const newPost = await res.json(); prependPost(newPost); form.reset();] *)
Definition onSubmit : M unit :=
  onSubmit_with ""
    (fun res => newPost <- read (as_post res) ;;
                prependPost newPost ;;;
                form_reset).

(** part_000 169: the call [getPosts();] that ends the script. *)
Definition onLoad : M unit := detach getPosts.

End Prepend.

(** *** src/unnamed/part_000, lines 1-47 and 169-216

    The two scripts that send the form itself.  The properties of the
    presigned upload are about the other two scripts; these two come back in
    the further properties at the end. *)
Module Multipart.

(** part_000 14-29 *)
Definition getPosts : M unit := getPosts_with placeholder_text.

(** part_000 182-197 *)
Definition getPosts' : M unit := getPosts_with placeholder_block.

Section Form.

(** The entries that [new FormData(form)] collects from the fields of the
    form: they depend on the markup of the page, which is not under src, so
    they are left open. *)
Variable entries : page -> FormData.

(** [new FormData(form)] *)
Definition new_FormData : M FormData :=
  fun _ st => (Return (entries st), st).

(** The handler of both scripts up to the copy of [getPosts] it calls:
    no button, no [try], and [getPosts()] is not awaited. *)
Definition onSubmit_calling (getPosts : M unit) : M unit :=
  formData <- new_FormData ;;
  res <- fetch (POST_form "/api/posts" formData) ;;
  if negb (ok res) then
    let txt := text res in
    alert ("上傳失敗 " ++ txt)
  else
    form_reset ;;;
    detach getPosts.

(** part_000 31-46 *)
Definition onSubmit : M unit := onSubmit_calling getPosts.

(** part_000 199-214 *)
Definition onSubmit' : M unit := onSubmit_calling getPosts'.

End Form.

(** part_000 48 and 216: the call [getPosts();] that ends each script. *)
Definition onLoad : M unit := detach getPosts.
Definition onLoad' : M unit := detach getPosts'.

End Multipart.

(** ** How the steps of a submission end *)

(** The request is answered with a success status. *)
Definition succeeds (s : settled) (r : response) : Prop :=
  s = Resolves r /\ ok r = true.

(** The request is answered with a success status and a body that reads as
    [a]. *)
Definition answers {A} (view : response -> reading A) (s : settled) (a : A)
  : Prop :=
  exists r, succeeds s r /\ view r = Reads a.

(** The request is answered with a success status and a body that cannot be
    read; [m] is the message of the exception. *)
Definition unreadable {A} (view : response -> reading A) (s : settled)
    (m : string) : Prop :=
  exists r, succeeds s r /\ view r = Fails m.

(** A request to the backend fails: the network fails, with the engine's
    message, or the backend answers with another status than success, the
    message being the text of its answer. *)
Inductive fails_with : settled -> string -> Prop :=
| rejected (m : string) : fails_with (Rejects m) m
| refused (r : response) : ok r = false -> fails_with (Resolves r) (text r).

(** The upload fails: the network fails, or the storage answers with
    another status than success, the message then being the one of
    app.js 63. *)
Inductive upload_fails_with : settled -> string -> Prop :=
| upload_rejected (m : string) : upload_fails_with (Rejects m) m
| upload_refused (r : response) :
    ok r = false ->
    upload_fails_with (Resolves r)
      ("上傳到 S3 失敗: " ++ Number_toString (status r)).

(** The page [st] once a submission is over: the button is enabled again
    and the events [evs] have been added to the log. *)
Definition after_events (st : page) (evs : list event) : page :=
  mkPage (textarea st) (files st) false (list_view st) (log st ++ evs)%list.

(** The page [st] while a submission runs: the button is disabled and the
    events [evs] have been added to the log. *)
Definition while_submitting (st : page) (evs : list event) : page :=
  mkPage (textarea st) (files st) true (list_view st) (log st ++ evs)%list.

(** ** Sample files, answers and worlds *)

Definition sample_file : file := mkFile "cat.png" "image/png" 2048.

(** A file for which the browser knows no type. *)
Definition untyped_file : file := mkFile "notes" "" 12.

Definition sample_descriptor : descriptor :=
  mkDescriptor "https://bucket.example/"
    [("key", "uploads/cat.png"); ("policy", "eyJleHAiOjF9")]
    "uploads/cat.png".

Definition sample_post : post :=
  mkPost 7 "hello <b>" (Some "https://bucket.example/uploads/cat.png")
    "2024-05-01T10:00:00".

Definition older_post : post := mkPost 6 "first" None "2024-04-30T09:00:00".

(** An answer with status [code] whose text is [t] and whose body reads as
    the sample values. *)
Definition answer (code : Z) (t : string) : response :=
  mkResponse code t (Reads [sample_post; older_post])
    (Reads sample_descriptor) (Reads sample_post).

(** Every request succeeds. *)
Definition kind_world : world := fun _ _ => Resolves (answer 200 "ok").

(** The request number [n] (from 0) is answered by [s], every other one
    succeeds. *)
Definition world_failing_at (n : nat) (s : settled) : world :=
  fun h _ => if Nat.eqb (List.length h) n then s else Resolves (answer 200 "ok").

Definition page_with (fs : list file) : page :=
  mkPage "  hello <b>  " fs false ["<p>earlier</p>"] [].

(** The four copies of [getPosts] with the placeholder of each. *)
Definition all_getPosts : list (M unit * string) :=
  [ (Web.getPosts, placeholder_block);
    (Prepend.getPosts, placeholder_block);
    (Multipart.getPosts, placeholder_text);
    (Multipart.getPosts', placeholder_block) ].

(** The request of [getPosts]. *)
Definition list_request : request := GET "/api/posts".

(** A post whose address carries markup. *)
Definition hostile_post : post :=
  mkPost 9 "hi"
    (Some ("x" ++ dq ++ "><script>alert(1)</script>")) "2024-05-02".

(** The two scripts that upload through a presigned form, each with the
    address it puts before the paths of the backend and with whether it
    fetches the list again after a registration. *)
Definition presign_variants : list (M unit * string * bool) :=
  [ (Web.onSubmit, Web.API_BASE, true);
    (Prepend.onSubmit, "", false) ].

(** Every step of a submission up to the registration succeeds: [evs] are
    the requests issued on the way and [r] is the answer to the
    registration. *)
Inductive registers (base : string) (w : world) (st : page)
  : list event -> response -> Prop :=
| registers_with_file (f : file) (d : descriptor) (r2 r3 : response) :
    hd_error (files st) = Some f ->
    answers as_descriptor
      (w (requests (log st)) (presign_request base f)) d ->
    succeeds
      (w (requests (log st) ++ [presign_request base f])%list
         (upload_request d f)) r2 ->
    succeeds
      (w (requests (log st) ++ [presign_request base f; upload_request d f])%list
         (register_request base (trim (textarea st)) (JStr (key d)))) r3 ->
    registers base w st
      [ Fetch (presign_request base f);
        Fetch (upload_request d f);
        Fetch (register_request base (trim (textarea st)) (JStr (key d))) ]
      r3
| registers_without_file (r : response) :
    hd_error (files st) = None ->
    succeeds
      (w (requests (log st))
         (register_request base (trim (textarea st)) JNull)) r ->
    registers base w st
      [ Fetch (register_request base (trim (textarea st)) JNull) ] r.

(** The body of the presign request if [content_type] were the declared
    type of the file whatever it is. *)
Definition declared_type_body (f : file) : json :=
  [ ("filename", JStr (name f));
    ("content_type", JStr (type f));
    ("size", JNum (size f)) ].


(** ** Vocabulary of the further properties *)

(** Some character of [s] is one of the five that [preventXSS] replaces. *)
Fixpoint needs_escape (s : string) : bool :=
  match s with
  | EmptyString => false
  | String c rest => xss_class c || needs_escape rest
  end.

(** Every character of [s] is one of the one-byte blanks (tab, line feed,
    vertical tab, form feed, carriage return, space). *)
Fixpoint blank (s : string) : bool :=
  match s with
  | EmptyString => true
  | String c rest => ws1 c && blank rest
  end.

(** An ASCII character that is not a blank. *)
Definition plain (a : ascii) : bool := (code a <? 128)%nat && negb (ws1 a).

(** The markup of the list, first child first. *)
Definition markup (st : page) : string := String.concat "" (list_view st).

(** The two copies of the handler that sends the form, over the entries of
    the form, each with the copy of [getPosts] it calls. *)
Definition form_variants (entries : page -> FormData)
  : list (M unit * M unit) :=
  [ (Multipart.onSubmit entries, Multipart.getPosts);
    (Multipart.onSubmit' entries, Multipart.getPosts') ].

(** A form with a message field and an image field, the two fields that
    the spec names for the multipart body.  A file input with no file
    selected gives one entry, an empty file with no name and the generic
    type. *)
Definition sample_entries (st : page) : FormData :=
  ("message", Text (textarea st))
  :: match files st with
     | [] => [("image", Blob (mkFile "" "application/octet-stream" 0))]
     | fs => map (fun f => ("image", Blob f)) fs
     end.

(** ** Post blocks in a piece of markup *)

(** [s] begins with [pat]. *)
Fixpoint starts_with (pat s : string) : bool :=
  match pat, s with
  | EmptyString, _ => true
  | String a pat', String b s' => Ascii.eqb a b && starts_with pat' s'
  | String _ _, EmptyString => false
  end.

(** The number of places of [s] at which [pat] begins. *)
Fixpoint occurrences (pat s : string) : nat :=
  match s with
  | EmptyString => 0%nat
  | String c rest =>
      ((if starts_with pat s then 1 else 0) + occurrences pat rest)%nat
  end.

(** The start tag of a post block, as the templates write it. *)
Definition post_opener : string := "<div class=" ++ dq ++ "post" ++ dq ++ ">".

(** The number of post blocks that a piece of markup opens. *)
Definition post_blocks (html : string) : nat := occurrences post_opener html.

(** The fields of the post that are put in the block as they are hold no
    character that opens a tag. *)
Definition no_markup (p : post) : bool :=
  negb (has_char "<" (created_at p))
  && match image_url p with
     | Some u => negb (has_char "<" u)
     | None => true
     end.

(** One post whose [created_at] closes its block and carries the markup of
    a second one, so that its rendering is the rendering of [older_post]
    followed by [sample_post]. *)
Definition merged_post : post :=
  mkPost 6 "first" None
    ("2024-04-30T09:00:00</div>" ++ nl ++ "    </div>" ++ nl ++ "  "
     ++ nl ++ "    <div class=" ++ dq ++ "post" ++ dq ++ ">" ++ nl
     ++ "      <h3>hello &lt;b&gt;</h3>" ++ nl
     ++ "      <img src=" ++ dq ++ "https://bucket.example/uploads/cat.png"
     ++ dq ++ " alt=" ++ dq ++ "image" ++ dq ++ ">" ++ nl
     ++ "      <div class=" ++ dq ++ "meta" ++ dq
     ++ ">#7 · 2024-05-01T10:00:00").

(** Every request succeeds and every collection that is fetched holds the
    posts [data]. *)
Definition world_listing (data : list post) : world :=
  fun _ _ =>
    Resolves
      (mkResponse 200 "ok" (Reads data) (Reads sample_descriptor)
         (Reads sample_post)).

(** * Properties *)

(** ** Strings *)

Lemma append_empty_r (s : string) : s ++ "" = s.
Proof. induction s as [|c s IH]; simpl; [reflexivity | now rewrite IH]. Qed.

Lemma append_assoc (a b c : string) : (a ++ b) ++ c = a ++ (b ++ c).
Proof. induction a as [|x a IH]; simpl; [reflexivity | now rewrite IH]. Qed.

Lemma has_char_append (c : ascii) (a b : string) :
  has_char c (a ++ b) = has_char c a || has_char c b.
Proof.
  induction a as [|x a IH]; simpl; [reflexivity |].
  now rewrite IH, orb_assoc.
Qed.

Lemma occurs_in_has_char (c : ascii) (t s : string) :
  occurs_in t s -> has_char c t = true -> has_char c s = true.
Proof.
  intros (pre & suf & ->) H.
  rewrite !has_char_append, H. now rewrite orb_true_r.
Qed.

(** ** The escaping function *)

Lemma xss_class_lookup (c : ascii) :
  (if xss_class c
   then match lookup entities (String c "") with
        | Some r => r
        | None => "undefined"
        end
   else String c "") = spec_escape c.
Proof.
  unfold xss_class, spec_escape, entities, lookup, dq.
  destruct (Ascii.eqb_spec c "&") as [->|]; [reflexivity|].
  destruct (Ascii.eqb_spec c "<") as [->|]; [reflexivity|].
  destruct (Ascii.eqb_spec c ">") as [->|]; [reflexivity|].
  destruct (Ascii.eqb_spec c dq_char) as [->|]; [reflexivity|].
  destruct (Ascii.eqb_spec c "'") as [->|]; reflexivity.
Qed.

Lemma preventXSS_step (c : ascii) (rest : string) :
  preventXSS (String c rest) = spec_escape c ++ preventXSS rest.
Proof.
  unfold preventXSS. cbn [replace_class]. now rewrite xss_class_lookup.
Qed.

Lemma preventXSS_refines (s : string) : preventXSS s = spec_escape_all s.
Proof.
  induction s as [|c s IH]; [reflexivity |].
  rewrite preventXSS_step, IH. reflexivity.
Qed.

Lemma preventXSS_append (a b : string) :
  preventXSS (a ++ b) = preventXSS a ++ preventXSS b.
Proof.
  induction a as [|c a IH]; [reflexivity |].
  change (String c a ++ b) with (String c (a ++ b)).
  rewrite !preventXSS_step, IH, append_assoc. reflexivity.
Qed.

Lemma spec_escape_other (c : ascii) :
  xss_class c = false -> spec_escape c = String c "".
Proof.
  unfold xss_class, spec_escape. intros H.
  repeat (apply orb_false_elim in H; destruct H as [H ?]).
  now repeat match goal with E : Ascii.eqb _ _ = false |- _ => rewrite E; clear E end.
Qed.

(** What is left of the five characters after escaping: the ampersand only
    (it opens every entity). *)
Lemma spec_escape_clean (c d : ascii) :
  d = "<"%char \/ d = ">"%char \/ d = dq_char \/ d = "'"%char ->
  has_char d (spec_escape c) = false.
Proof.
  intros Hd. unfold spec_escape.
  destruct (Ascii.eqb_spec c "&") as [->|H1];
    [destruct Hd as [-> | [-> | [-> | ->]]]; reflexivity|].
  destruct (Ascii.eqb_spec c "<") as [->|H2];
    [destruct Hd as [-> | [-> | [-> | ->]]]; reflexivity|].
  destruct (Ascii.eqb_spec c ">") as [->|H3];
    [destruct Hd as [-> | [-> | [-> | ->]]]; reflexivity|].
  destruct (Ascii.eqb_spec c dq_char) as [->|H4];
    [destruct Hd as [-> | [-> | [-> | ->]]]; reflexivity|].
  destruct (Ascii.eqb_spec c "'") as [->|H5];
    [destruct Hd as [-> | [-> | [-> | ->]]]; reflexivity|].
  simpl. rewrite orb_false_r. apply Ascii.eqb_neq.
  destruct Hd as [-> | [-> | [-> | ->]]]; congruence.
Qed.

Lemma preventXSS_clean (s : string) (d : ascii) :
  d = "<"%char \/ d = ">"%char \/ d = dq_char \/ d = "'"%char ->
  has_char d (preventXSS s) = false.
Proof.
  intros Hd. induction s as [|c s IH]; [reflexivity |].
  rewrite preventXSS_step, has_char_append, IH, orb_false_r.
  now apply spec_escape_clean.
Qed.

(** In the block of a post the message stands escaped between the heading
    tags. *)
Lemma block_holds_escaped_message (p : post) :
  occurs_in ("<h3>" ++ preventXSS (message p) ++ "</h3>") (render_post p).
Proof.
  exists (nl ++ "    <div class=" ++ dq ++ "post" ++ dq ++ ">" ++ nl
          ++ "      "),
         (nl ++ "      " ++ img_part p ++ nl
          ++ "      <div class=" ++ dq ++ "meta" ++ dq ++ ">#"
          ++ Number_toString (id p) ++ " · " ++ created_at p ++ "</div>"
          ++ nl ++ "    </div>" ++ nl ++ "  ").
  unfold render_post. rewrite ?append_assoc. reflexivity.
Qed.

(** C2. [preventXSS] replaces each of the five characters ampersand,
    less-than, greater-than, double quote and apostrophe by its entity
    wherever it occurs and copies every other character: it is the
    character-wise substitution of the table, so it distributes over
    concatenation, and none of the characters less-than, greater-than,
    double quote and apostrophe is left in its result.  It is applied to
    the message of every post that is rendered, so a message holding a
    script element or quotes comes out entity by entity in the block. *)
Theorem preventXSS_substitutes :
  (forall s, preventXSS s = spec_escape_all s)
  /\ preventXSS "" = ""
  /\ (forall rest, preventXSS (String "&" rest) = "&amp;" ++ preventXSS rest)
  /\ (forall rest, preventXSS (String "<" rest) = "&lt;" ++ preventXSS rest)
  /\ (forall rest, preventXSS (String ">" rest) = "&gt;" ++ preventXSS rest)
  /\ (forall rest,
        preventXSS (String dq_char rest) = "&quot;" ++ preventXSS rest)
  /\ (forall rest, preventXSS (String "'" rest) = "&#39;" ++ preventXSS rest)
  /\ (forall c rest,
        c <> "&"%char -> c <> "<"%char -> c <> ">"%char -> c <> dq_char ->
        c <> "'"%char ->
        preventXSS (String c rest) = String c (preventXSS rest))
  /\ (forall a b, preventXSS (a ++ b) = preventXSS a ++ preventXSS b)
  /\ (forall s, has_char "<" (preventXSS s) = false
                /\ has_char ">" (preventXSS s) = false
                /\ has_char dq_char (preventXSS s) = false
                /\ has_char "'" (preventXSS s) = false)
  /\ preventXSS "<script>alert('x')</script>"
     = "&lt;script&gt;alert(&#39;x&#39;)&lt;/script&gt;"
  /\ preventXSS ("say " ++ dq ++ "hi" ++ dq ++ " & go")
     = "say &quot;hi&quot; &amp; go"
  /\ (forall p,
        occurs_in ("<h3>" ++ spec_escape_all (message p) ++ "</h3>")
          (render_post p))
  /\ render_post (mkPost 1 ("<script>" ++ dq ++ "'") None "now")
     = nl ++ "    <div class=" ++ dq ++ "post" ++ dq ++ ">" ++ nl
       ++ "      <h3>&lt;script&gt;&quot;&#39;</h3>" ++ nl
       ++ "      " ++ nl
       ++ "      <div class=" ++ dq ++ "meta" ++ dq ++ ">#1 · now</div>" ++ nl
       ++ "    </div>" ++ nl ++ "  ".
Proof.
  split; [exact preventXSS_refines |].
  split; [reflexivity |].
  do 5 (split; [intros rest; now rewrite preventXSS_step |]).
  split.
  { intros c rest H1 H2 H3 H4 H5. rewrite preventXSS_step.
    rewrite spec_escape_other; [reflexivity |].
    unfold xss_class.
    apply Ascii.eqb_neq in H1, H2, H3, H4, H5.
    now rewrite H1, H2, H3, H4, H5. }
  split; [exact preventXSS_append |].
  split.
  { intros s. repeat split; apply preventXSS_clean; auto. }
  do 2 (split; [reflexivity |]).
  split; [| reflexivity].
  intros p. rewrite <- preventXSS_refines. apply block_holds_escaped_message.
Qed.

(** ** The effects log *)

Lemma requests_app (l1 l2 : list event) :
  requests (l1 ++ l2) = (requests l1 ++ requests l2)%list.
Proof.
  induction l1 as [|[rq|m] l1 IH]; simpl; [reflexivity | now rewrite IH | exact IH].
Qed.

(** ** The upload form *)

Lemma upload_entries (l : list (string * string)) (acc : FormData) :
  fold_left (fun fd kv => FormData_append fd (fst kv) (Text (snd kv))) l acc
  = (acc ++ map (fun kv => (fst kv, Text (snd kv))) l)%list.
Proof.
  revert acc. induction l as [|kv l IH]; intros acc; simpl.
  - now rewrite app_nil_r.
  - rewrite IH. unfold FormData_append. now rewrite <- app_assoc.
Qed.

(** The form holds the entries of [fields], each under its key and with its
    value, in their order, and then the file under [file]. *)
Lemma upload_form_entries (d : descriptor) (f : file) :
  upload_form d f
  = (map (fun kv => (fst kv, Text (snd kv))) (fields d) ++ [("file", Blob f)])%list.
Proof.
  unfold upload_form. rewrite upload_entries. reflexivity.
Qed.

(** ** The submission, step by step *)

Section Submission.

Variable base : string.
Variable after : response -> M unit.
Variable w : world.
Variable st : page.

Let h : list request := requests (log st).
Let msg : string := trim (textarea st).

Ltac simp := cbn [log textarea files disabled list_view fst snd negb].

Ltac run :=
  unfold onSubmit_with, presign_at, uploadToS3, try_catch_finally, bind,
    read_message, read_file, set_disabled, fetch, read, throw, alert, ret,
    record, after_events, while_submitting; simp.

(* The requests issued so far, as the hypotheses write them. *)
Ltac history :=
  rewrite ?requests_app; cbn [requests]; rewrite <- ?app_assoc; cbn [app].

(* Case analysis on whatever an innermost [match] of the goal looks at. *)
Ltac cases :=
  repeat match goal with
         | u : unit |- _ => destruct u
         | |- context [match ?x with _ => _ end] =>
             lazymatch x with
             | context [match _ with _ => _ end] => fail
             | _ => destruct x; cbn
             end
         end.

(* One request whose answer is known. *)
Ltac answered H Hok := history; rewrite H; simp; rewrite ?Hok; simp.

(** The handler always leaves the button enabled. *)
Lemma submit_enables :
  disabled (snd (onSubmit_with base after w st)) = false.
Proof.
  run. cases; reflexivity.
Qed.

(** The handler itself never throws. *)
Lemma submit_returns :
  fst (onSubmit_with base after w st) = Return tt.
Proof.
  run. cases; reflexivity.
Qed.

Section WithFile.

Variable f : file.
Hypothesis selected : hd_error (files st) = Some f.

Let rq1 : request := presign_request base f.
Let rq2 (d : descriptor) : request := upload_request d f.
Let rq3 (d : descriptor) : request :=
  register_request base msg (JStr (key d)).

Lemma submit_presign_fails (m : string) :
  fails_with (w h rq1) m \/ unreadable as_descriptor (w h rq1) m ->
  onSubmit_with base after w st
  = (Return tt, after_events st [Fetch rq1; Alert (alert_text m)]).
Proof.
  intros H. unfold h, rq1 in *. run. rewrite selected. simp.
  destruct H as [H | (r & [H Hok] & Hr)].
  - remember (w _ _) as s eqn:E in *. clear E.
    destruct H as [m | r Hok]; simp.
    + now history.
    + rewrite Hok. simp. now history.
  - answered H Hok. rewrite Hr. simp. now history.
Qed.

Lemma submit_upload_fails (d : descriptor) (m : string) :
  answers as_descriptor (w h rq1) d ->
  upload_fails_with (w (h ++ [rq1])%list (rq2 d)) m ->
  onSubmit_with base after w st
  = (Return tt,
     after_events st [Fetch rq1; Fetch (rq2 d); Alert (alert_text m)]).
Proof.
  intros (r1 & [H1 Hok1] & Hd) H2. unfold h, rq1, rq2 in *.
  run. rewrite selected. simp.
  answered H1 Hok1. rewrite Hd. simp. history.
  remember (w _ (upload_request d f)) as s eqn:E in *. clear E.
  destruct H2 as [m | r Hok]; simp.
  - now history.
  - rewrite Hok. simp. now history.
Qed.

Lemma submit_register_fails (d : descriptor) (r2 : response) (m : string) :
  answers as_descriptor (w h rq1) d ->
  succeeds (w (h ++ [rq1])%list (rq2 d)) r2 ->
  fails_with (w (h ++ [rq1; rq2 d])%list (rq3 d)) m ->
  onSubmit_with base after w st
  = (Return tt,
     after_events st
       [Fetch rq1; Fetch (rq2 d); Fetch (rq3 d); Alert (alert_text m)]).
Proof.
  intros (r1 & [H1 Hok1] & Hd) [H2 Hok2] H3.
  unfold h, rq1, rq2, rq3, msg in *.
  run. rewrite selected. simp.
  answered H1 Hok1. rewrite Hd. simp.
  answered H2 Hok2. history.
  remember (w _ (register_request _ _ _)) as s eqn:E in *. clear E.
  destruct H3 as [m | r Hok]; simp.
  - now history.
  - rewrite Hok. simp. now history.
Qed.

Lemma submit_registered (d : descriptor) (r2 r3 : response) :
  answers as_descriptor (w h rq1) d ->
  succeeds (w (h ++ [rq1])%list (rq2 d)) r2 ->
  succeeds (w (h ++ [rq1; rq2 d])%list (rq3 d)) r3 ->
  onSubmit_with base after w st
  = try_catch_finally (after r3) (fun err => alert (alert_text err))
      (set_disabled false) w
      (while_submitting st [Fetch rq1; Fetch (rq2 d); Fetch (rq3 d)]).
Proof.
  intros (r1 & [H1 Hok1] & Hd) [H2 Hok2] [H3 Hok3].
  unfold h, rq1, rq2, rq3, msg in *.
  run. rewrite selected. simp.
  answered H1 Hok1. rewrite Hd. simp.
  answered H2 Hok2. answered H3 Hok3. history. reflexivity.
Qed.

End WithFile.

Section NoFile.

Hypothesis none_selected : hd_error (files st) = None.

Let rq0 : request := register_request base msg JNull.

Lemma submit_register_fails_nofile (m : string) :
  fails_with (w h rq0) m ->
  onSubmit_with base after w st
  = (Return tt, after_events st [Fetch rq0; Alert (alert_text m)]).
Proof.
  intros H. unfold h, rq0, msg in *. run. rewrite none_selected. simp.
  remember (w _ _) as s eqn:E in *. clear E.
  destruct H as [m | r Hok]; simp.
  - now history.
  - rewrite Hok. simp. now history.
Qed.

Lemma submit_registered_nofile (r : response) :
  succeeds (w h rq0) r ->
  onSubmit_with base after w st
  = try_catch_finally (after r) (fun err => alert (alert_text err))
      (set_disabled false) w (while_submitting st [Fetch rq0]).
Proof.
  intros [H Hok]. unfold h, rq0, msg in *.
  run. rewrite none_selected. simp.
  answered H Hok. reflexivity.
Qed.

End NoFile.

End Submission.

(** ** Fetching and rendering the list *)

Section GetPosts.

Variable placeholder : string.
Variable w : world.
Variable st : page.

Ltac run :=
  unfold getPosts_with, bind, fetch, read, set_innerHTML, throw, ret, record;
  cbn [log textarea files disabled list_view fst snd negb].

Lemma getPosts_renders (r : response) (data : list post) :
  succeeds (w (requests (log st)) list_request) r ->
  as_envelope r = Reads data ->
  getPosts_with placeholder w st
  = (Return tt,
     mkPage (textarea st) (files st) (disabled st) [render_posts data]
       (log st ++ [Fetch list_request])%list).
Proof.
  intros [H Hok] Hd. unfold list_request in *. run.
  rewrite H. cbn. rewrite Hok. cbn. rewrite Hd. reflexivity.
Qed.

Lemma getPosts_gives_up (r : response) :
  w (requests (log st)) list_request = Resolves r ->
  ok r = false ->
  getPosts_with placeholder w st
  = (Return tt,
     mkPage (textarea st) (files st) (disabled st) [placeholder]
       (log st ++ [Fetch list_request])%list).
Proof.
  intros H Hok. unfold list_request in *. run.
  rewrite H. cbn. rewrite Hok. reflexivity.
Qed.

Lemma getPosts_throws (m : string) :
  w (requests (log st)) list_request = Rejects m
  \/ unreadable as_envelope (w (requests (log st)) list_request) m ->
  getPosts_with placeholder w st
  = (Throw m,
     mkPage (textarea st) (files st) (disabled st) (list_view st)
       (log st ++ [Fetch list_request])%list).
Proof.
  intros [H | (r & [H Hok] & Hd)]; unfold list_request in *; run;
    rewrite H; cbn; [reflexivity |].
  rewrite Hok. cbn. rewrite Hd. reflexivity.
Qed.

End GetPosts.

Lemma render_posts_cons (p : post) (data : list post) :
  render_posts (p :: data) = render_post p ++ render_posts data.
Proof.
  unfold render_posts. cbn [map String.concat].
  destruct (map render_post data) as [|b bs] eqn:E.
  - now rewrite append_empty_r.
  - reflexivity.
Qed.

Lemma render_posts_app (l1 l2 : list post) :
  render_posts (l1 ++ l2) = render_posts l1 ++ render_posts l2.
Proof.
  induction l1 as [|p l1 IH]; [reflexivity |].
  cbn [app]. rewrite !render_posts_cons, IH, append_assoc. reflexivity.
Qed.

(** ** Counting the blocks of a piece of markup *)

Lemma opener_needs_bracket (c : ascii) (s : string) :
  Ascii.eqb "<" c = false -> starts_with post_opener (String c s) = false.
Proof.
  intros H. unfold post_opener, dq. cbn [String.append starts_with].
  now rewrite H.
Qed.

(** Text without a tag-opening character holds no block and ends none
    that a later text could complete. *)
Lemma post_blocks_skip (x rest : string) :
  has_char "<" x = false -> post_blocks (x ++ rest) = post_blocks rest.
Proof.
  unfold post_blocks. induction x as [|c x IH]; [reflexivity |].
  cbn [has_char]. intros H. apply orb_false_elim in H as [Hc Hx].
  change (String c x ++ rest) with (String c (x ++ rest)).
  cbn [occurrences]. rewrite (opener_needs_bracket c _ Hc), (IH Hx).
  reflexivity.
Qed.

(** Text put before a piece of markup takes no block away from it. *)
Lemma post_blocks_after (x rest : string) :
  (post_blocks rest <= post_blocks (x ++ rest))%nat.
Proof.
  unfold post_blocks. induction x as [|c x IH]; [apply Nat.le_refl |].
  change (String c x ++ rest) with (String c (x ++ rest)).
  cbn [occurrences]. lia.
Qed.

(** The fixed pieces of the template, each before any text [rest]. *)
Lemma post_blocks_head (rest : string) :
  post_blocks (nl ++ "    <div class=" ++ dq ++ "post" ++ dq ++ ">" ++ nl
               ++ "      <h3>" ++ rest)
  = S (post_blocks rest).
Proof. reflexivity. Qed.

Lemma post_blocks_heading_end (rest : string) :
  post_blocks ("</h3>" ++ nl ++ "      " ++ rest) = post_blocks rest.
Proof. reflexivity. Qed.

Lemma post_blocks_img_start (rest : string) :
  post_blocks ("<img src=" ++ dq ++ rest) = post_blocks rest.
Proof. reflexivity. Qed.

Lemma post_blocks_img_end (rest : string) :
  post_blocks (dq ++ " alt=" ++ dq ++ "image" ++ dq ++ ">" ++ rest)
  = post_blocks rest.
Proof. reflexivity. Qed.

Lemma post_blocks_meta (rest : string) :
  post_blocks (nl ++ "      <div class=" ++ dq ++ "meta" ++ dq ++ ">#" ++ rest)
  = post_blocks rest.
Proof. reflexivity. Qed.

Lemma post_blocks_dot (rest : string) :
  post_blocks (" · " ++ rest) = post_blocks rest.
Proof. reflexivity. Qed.

Lemma post_blocks_tail (rest : string) :
  post_blocks ("</div>" ++ nl ++ "    </div>" ++ nl ++ "  " ++ rest)
  = post_blocks rest.
Proof. reflexivity. Qed.

Lemma numeral_has_no_bracket (d : Decimal.uint) :
  has_char "<" (NilEmpty.string_of_uint d) = false.
Proof. induction d; cbn; trivial. Qed.

Lemma Number_toString_has_no_bracket (n : Z) :
  has_char "<" (Number_toString n) = false.
Proof.
  unfold Number_toString. destruct (Z.to_int n) as [d | d]; cbn;
    apply numeral_has_no_bracket.
Qed.

Lemma img_part_blocks (p : post) (rest : string) :
  no_markup p = true ->
  post_blocks (img_part p ++ rest) = post_blocks rest.
Proof.
  unfold no_markup, img_part. intros H. apply andb_prop in H as [_ H].
  destruct (image_url p) as [u |]; [| reflexivity].
  destruct (truthy u); [| reflexivity].
  apply negb_true_iff in H. unfold img_tag.
  rewrite !append_assoc, post_blocks_img_start, (post_blocks_skip u _ H).
  apply post_blocks_img_end.
Qed.

(** The block of a post whose fields hold no markup is one block, whatever
    follows it. *)
Lemma render_post_one_block (p : post) (rest : string) :
  no_markup p = true ->
  post_blocks (render_post p ++ rest) = S (post_blocks rest).
Proof.
  intros H. pose proof H as Hc. unfold no_markup in Hc.
  apply andb_prop in Hc as [Hc _]. apply negb_true_iff in Hc.
  unfold render_post. rewrite !append_assoc.
  rewrite post_blocks_head.
  rewrite post_blocks_skip by (apply preventXSS_clean; auto).
  rewrite post_blocks_heading_end, (img_part_blocks p _ H), post_blocks_meta.
  rewrite (post_blocks_skip _ _ (Number_toString_has_no_bracket (id p))).
  rewrite post_blocks_dot, (post_blocks_skip _ _ Hc), post_blocks_tail.
  reflexivity.
Qed.

(** The block of any post opens at least one block. *)
Lemma render_post_some_block (p : post) (rest : string) :
  (S (post_blocks rest) <= post_blocks (render_post p ++ rest))%nat.
Proof.
  unfold render_post. rewrite !append_assoc, post_blocks_head.
  apply le_n_S.
  repeat match goal with
         | |- (post_blocks ?r <= post_blocks (?x ++ ?y))%nat =>
             first [ apply Nat.le_refl
                   | apply (Nat.le_trans _ (post_blocks y));
                     [| apply post_blocks_after] ]
         end.
Qed.

Lemma render_posts_blocks (data : list post) :
  forallb no_markup data = true ->
  post_blocks (render_posts data) = List.length data.
Proof.
  induction data as [|p data IH]; [reflexivity |].
  cbn [forallb]. intros H. apply andb_prop in H as [Hp Hdata].
  rewrite render_posts_cons, (render_post_one_block p _ Hp), (IH Hdata).
  reflexivity.
Qed.

Lemma render_posts_some_blocks (data : list post) :
  (List.length data <= post_blocks (render_posts data))%nat.
Proof.
  induction data as [|p data IH]; [apply Nat.le_0_l |].
  rewrite render_posts_cons. cbn [List.length].
  apply (Nat.le_trans _ (S (post_blocks (render_posts data))));
    [now apply le_n_S | apply render_post_some_block].
Qed.

Lemma forallb_no_markup_split (before behind : list post) (p : post) :
  forallb no_markup (before ++ p :: behind) = true ->
  forallb no_markup before = true /\ no_markup p = true.
Proof.
  rewrite forallb_app. cbn [forallb]. intros H.
  apply andb_prop in H as [Hb H]. apply andb_prop in H as [Hp _].
  now split.
Qed.

Lemma merged_post_renders_two :
  render_posts [merged_post] = render_posts [older_post; sample_post].
Proof. reflexivity. Qed.

(** C5, as the scripts have it.  When the fetch of the collection succeeds
    with an envelope of N posts, every copy of [getPosts] replaces the
    content of the list by the concatenation, in the order of the answer,
    of the blocks of the posts.  That markup opens at least N post blocks.
    When no [image_url] and no [created_at] of the posts holds the
    character that opens a tag, it opens exactly N, and the block of the
    post at place i of the answer comes after exactly i blocks, is one
    block and holds the escaped message of that post between the heading
    tags: the order of the server is kept. *)
Theorem getPosts_renders_one_block_per_post :
  forall (w : world) (st : page) (r : response) (data : list post),
    succeeds (w (requests (log st)) list_request) r ->
    as_envelope r = Reads data ->
    forall getPosts ph, In (getPosts, ph) all_getPosts ->
      list_view (snd (getPosts w st))
      = [String.concat "" (map render_post data)]
      /\ (List.length data <= post_blocks (markup (snd (getPosts w st))))%nat
      /\ (forallb no_markup data = true ->
          post_blocks (markup (snd (getPosts w st))) = List.length data
          /\ forall before p behind,
               data = (before ++ p :: behind)%list ->
               markup (snd (getPosts w st))
               = render_posts before ++ render_post p ++ render_posts behind
               /\ post_blocks (render_posts before) = List.length before
               /\ post_blocks (render_post p) = 1%nat
               /\ occurs_in ("<h3>" ++ preventXSS (message p) ++ "</h3>")
                    (render_post p)).
Proof.
  intros w st r data Hs Hd g ph Hin.
  assert (Hg : exists ph', g = getPosts_with ph').
  { cbn in Hin.
    destruct Hin as [E|[E|[E|[E|[]]]]]; inversion E; subst; eexists;
      reflexivity. }
  destruct Hg as (ph' & ->).
  rewrite (getPosts_renders ph' w st r data Hs Hd).
  unfold markup. cbn [snd list_view String.concat].
  fold (render_posts data).
  split; [reflexivity |].
  split; [apply render_posts_some_blocks |].
  intros Hplain. split; [now apply render_posts_blocks |].
  intros before p behind ->.
  destruct (forallb_no_markup_split before behind p Hplain) as [Hb Hp].
  split; [now rewrite render_posts_app, render_posts_cons |].
  split; [now apply render_posts_blocks |].
  split; [| apply block_holds_escaped_message].
  rewrite <- (append_empty_r (render_post p)).
  apply (render_post_one_block p "" Hp).
Qed.

Lemma getPosts_renders_one_block_per_post_witness :
  succeeds (kind_world (requests (log (page_with []))) list_request)
    (answer 200 "ok")
  /\ forallb no_markup [sample_post; older_post] = true
  /\ list_view (snd (Web.getPosts kind_world (page_with [])))
     = [render_post sample_post ++ render_post older_post]
  /\ post_blocks (markup (snd (Web.getPosts kind_world (page_with [])))) = 2%nat
  /\ post_blocks (render_posts [sample_post]) = 1%nat.
Proof.
  assert (Hs : succeeds (kind_world (requests (log (page_with []))) list_request)
                 (answer 200 "ok")) by (split; reflexivity).
  split; [exact Hs |]. split; [reflexivity |].
  destruct (getPosts_renders_one_block_per_post kind_world (page_with [])
              (answer 200 "ok") [sample_post; older_post] Hs eq_refl
              Web.getPosts placeholder_block (or_introl eq_refl))
    as (Hv & _ & Hb).
  destruct (Hb eq_refl) as (Hn & Hat).
  split; [exact Hv |]. split; [exact Hn |].
  exact (proj1 (proj2 (Hat [sample_post] older_post [] eq_refl))).
Defined.

(** C5 as it is worded fails: the answer below holds one post, and every
    copy of [getPosts] gives it the list view of an answer of two posts,
    with two post blocks, because [created_at] is put in the markup as it
    is. *)
Lemma one_post_renders_as_two_blocks :
  succeeds (world_listing [merged_post] (requests (log (page_with [])))
              list_request)
    (mkResponse 200 "ok" (Reads [merged_post]) (Reads sample_descriptor)
       (Reads sample_post))
  /\ List.length [merged_post] = 1%nat
  /\ list_view (snd (Web.getPosts (world_listing [merged_post]) (page_with [])))
     = list_view
         (snd (Web.getPosts (world_listing [older_post; sample_post])
                 (page_with [])))
  /\ post_blocks
       (markup (snd (Web.getPosts (world_listing [merged_post]) (page_with []))))
     = 2%nat.
Proof.
  split; [split; reflexivity |].
  repeat split.
Qed.

Lemma render_post_starts_a_line (p : post) :
  has_char nl_char (render_post p) = true.
Proof. reflexivity. Qed.

Lemma no_block_in_placeholder (p : post) (ph : string) :
  has_char nl_char ph = false -> ~ occurs_in (render_post p) ph.
Proof.
  intros Hph Hocc.
  pose proof (occurs_in_has_char nl_char _ _ Hocc (render_post_starts_a_line p)) as H.
  congruence.
Qed.

(** C8. When the fetch of the collection is answered with another status
    than success, every copy of [getPosts] replaces the content of the list
    by its placeholder, a constant of the script that does not depend on
    the answer, and returns: the request is the only one it issues (there
    is no second attempt), no alert is shown, and the block of no post
    occurs in the list. *)
Theorem getPosts_failure_shows_placeholder :
  forall (w : world) (st : page) (r : response),
    w (requests (log st)) list_request = Resolves r ->
    ok r = false ->
    forall getPosts ph, In (getPosts, ph) all_getPosts ->
      getPosts w st
      = (Return tt,
         mkPage (textarea st) (files st) (disabled st) [ph]
           (log st ++ [Fetch list_request])%list)
      /\ (ph = placeholder_block \/ ph = placeholder_text)
      /\ (forall p, ~ occurs_in (render_post p) ph).
Proof.
  intros w st r H Hok g ph Hin. cbn in Hin.
  destruct Hin as [E|[E|[E|[E|[]]]]]; inversion E; subst; clear E;
    (split; [apply (getPosts_gives_up _ w st r H Hok) |]);
    (split; [auto |]);
    intros p; now apply no_block_in_placeholder.
Qed.

Lemma getPosts_failure_shows_placeholder_witness :
  ok (answer 500 "down") = false
  /\ Multipart.getPosts (world_failing_at 0 (Resolves (answer 500 "down")))
       (page_with [])
     = (Return tt,
        mkPage "  hello <b>  " [] false ["無法取得貼文"] [Fetch list_request])
  /\ Web.getPosts (world_failing_at 0 (Resolves (answer 500 "down")))
       (page_with [])
     = (Return tt,
        mkPage "  hello <b>  " [] false
          ["<div class=" ++ dq ++ "post" ++ dq ++ ">無法取得貼文</div>"]
          [Fetch list_request]).
Proof.
  split; [reflexivity |].
  split.
  - exact (proj1 (getPosts_failure_shows_placeholder
                    (world_failing_at 0 (Resolves (answer 500 "down")))
                    (page_with []) (answer 500 "down") eq_refl eq_refl
                    Multipart.getPosts placeholder_text
                    (or_intror (or_intror (or_introl eq_refl))))).
  - exact (proj1 (getPosts_failure_shows_placeholder
                    (world_failing_at 0 (Resolves (answer 500 "down")))
                    (page_with []) (answer 500 "down") eq_refl eq_refl
                    Web.getPosts placeholder_block (or_introl eq_refl))).
Defined.

Lemma markup_cons (html : string) (st : page) (fragments : list string) :
  list_view st = html :: fragments ->
  markup st = html ++ String.concat "" fragments.
Proof.
  unfold markup. intros ->. cbn [String.concat].
  destruct fragments; [now rewrite append_empty_r | reflexivity].
Qed.

(** C9, as the script has it.  [prependPost] puts one fragment, the block
    of its post, before the first child of the list; it issues no request
    and shows no alert (the log is as it was), every fragment that was in
    the list is still there, unchanged and one place further, and nothing
    else of the page changes.  The fragment holds the escaped message of
    the post between the heading tags and opens at least one post block.
    When neither [image_url] nor [created_at] of the post holds the
    character that opens a tag, it opens exactly one, so the markup of the
    list has one post block more than before. *)
Theorem prependPost_inserts_block_at_front :
  forall (p : post) (w : world) (st : page),
    prependPost p w st
    = (Return tt,
       mkPage (textarea st) (files st) (disabled st)
         (render_post p :: list_view st) (log st))
    /\ requests (log (snd (prependPost p w st))) = requests (log st)
    /\ tl (list_view (snd (prependPost p w st))) = list_view st
    /\ (forall i, nth_error (list_view (snd (prependPost p w st))) (S i)
                  = nth_error (list_view st) i)
    /\ (exists html,
          hd_error (list_view (snd (prependPost p w st))) = Some html
          /\ occurs_in ("<h3>" ++ preventXSS (message p) ++ "</h3>") html
          /\ (1 <= post_blocks html)%nat
          /\ (no_markup p = true ->
              post_blocks html = 1%nat
              /\ post_blocks (markup (snd (prependPost p w st)))
                 = S (post_blocks (markup st)))).
Proof.
  intros p w st. split; [reflexivity |].
  split; [reflexivity |]. split; [reflexivity |]. split; [reflexivity |].
  exists (render_post p). split; [reflexivity |].
  split; [apply block_holds_escaped_message |].
  split.
  - pose proof (render_post_some_block p "") as H.
    rewrite append_empty_r in H. lia.
  - intros Hp. split.
    + rewrite <- (append_empty_r (render_post p)).
      apply (render_post_one_block p "" Hp).
    + rewrite (markup_cons (render_post p) (snd (prependPost p w st))
                 (list_view st) eq_refl).
      apply (render_post_one_block p _ Hp).
Qed.

Lemma prependPost_inserts_block_at_front_witness :
  no_markup sample_post = true
  /\ post_blocks
       (markup (snd (prependPost sample_post kind_world (page_with []))))
     = S (post_blocks (markup (page_with []))).
Proof.
  split; [reflexivity |].
  destruct (proj2 (proj2 (proj2 (proj2
              (prependPost_inserts_block_at_front sample_post kind_world
                 (page_with []))))))
    as (html & _ & _ & _ & H).
  exact (proj2 (H eq_refl)).
Defined.

(** C9 as it is worded fails: for the post below, whose [created_at]
    carries the markup of a second block, the fragment that [prependPost]
    puts in the list opens two post blocks, and is the markup of the
    blocks of two posts. *)
Lemma prependPost_can_insert_two_blocks :
  hd_error (list_view (snd (prependPost merged_post kind_world (page_with []))))
  = Some (render_post older_post ++ render_post sample_post)
  /\ post_blocks (render_post merged_post) = 2%nat
  /\ post_blocks
       (markup (snd (prependPost merged_post kind_world (page_with []))))
     = (2 + post_blocks (markup (page_with [])))%nat.
Proof. repeat split. Qed.

Lemma img_part_verbatim (p : post) (u : string) :
  image_url p = Some u -> truthy u = true ->
  img_part p = "<img src=" ++ dq ++ u ++ dq ++ " alt=" ++ dq ++ "image" ++ dq ++ ">".
Proof.
  intros Hu Ht. unfold img_part. now rewrite Hu, Ht.
Qed.

(** C10. Of the fields of a post only [message] goes through
    [preventXSS]: in the block the message stands escaped between the
    heading tags, while [image_url] (when it is a non-empty string), the
    decimal [id] and [created_at] stand as they are.  So a post whose
    [image_url] holds a double quote and angle brackets gives a block in
    which these characters occur unescaped, which no escaped text does. *)
Theorem only_message_is_escaped :
  (forall p,
     occurs_in ("<h3>" ++ preventXSS (message p) ++ "</h3>") (render_post p))
  /\ (forall p u,
        image_url p = Some u -> truthy u = true ->
        occurs_in ("<img src=" ++ dq ++ u ++ dq ++ " alt=") (render_post p))
  /\ (forall p,
        occurs_in
          (">#" ++ Number_toString (id p) ++ " · " ++ created_at p ++ "</div>")
          (render_post p))
  /\ (exists p u,
        image_url p = Some u
        /\ has_char dq_char u = true
        /\ has_char "<" u = true
        /\ has_char ">" u = true
        /\ occurs_in u (render_post p)
        /\ occurs_in "<script>alert(1)</script>" (render_post p)
        /\ forall s, ~ occurs_in u (preventXSS s)).
Proof.
  split; [| split; [| split]].
  - exact block_holds_escaped_message.
  - intros p u Hu Ht.
    exists (nl ++ "    <div class=" ++ dq ++ "post" ++ dq ++ ">" ++ nl
            ++ "      <h3>" ++ preventXSS (message p) ++ "</h3>" ++ nl
            ++ "      "),
           (dq ++ "image" ++ dq ++ ">" ++ nl
            ++ "      <div class=" ++ dq ++ "meta" ++ dq ++ ">#"
            ++ Number_toString (id p) ++ " · " ++ created_at p ++ "</div>"
            ++ nl ++ "    </div>" ++ nl ++ "  ").
    unfold render_post. rewrite (img_part_verbatim p u Hu Ht).
    rewrite ?append_assoc. reflexivity.
  - intros p.
    exists (nl ++ "    <div class=" ++ dq ++ "post" ++ dq ++ ">" ++ nl
            ++ "      <h3>" ++ preventXSS (message p) ++ "</h3>" ++ nl
            ++ "      " ++ img_part p ++ nl
            ++ "      <div class=" ++ dq ++ "meta" ++ dq),
           (nl ++ "    </div>" ++ nl ++ "  ").
    unfold render_post. rewrite ?append_assoc. reflexivity.
  - exists hostile_post, ("x" ++ dq ++ "><script>alert(1)</script>").
    repeat split.
    + exists (nl ++ "    <div class=" ++ dq ++ "post" ++ dq ++ ">" ++ nl
              ++ "      <h3>hi</h3>" ++ nl ++ "      <img src=" ++ dq),
             (dq ++ " alt=" ++ dq ++ "image" ++ dq ++ ">" ++ nl
              ++ "      <div class=" ++ dq ++ "meta" ++ dq
              ++ ">#9 · 2024-05-02</div>" ++ nl ++ "    </div>" ++ nl ++ "  ").
      reflexivity.
    + exists (nl ++ "    <div class=" ++ dq ++ "post" ++ dq ++ ">" ++ nl
              ++ "      <h3>hi</h3>" ++ nl ++ "      <img src=" ++ dq
              ++ "x" ++ dq ++ ">"),
             (dq ++ " alt=" ++ dq ++ "image" ++ dq ++ ">" ++ nl
              ++ "      <div class=" ++ dq ++ "meta" ++ dq
              ++ ">#9 · 2024-05-02</div>" ++ nl ++ "    </div>" ++ nl ++ "  ").
      reflexivity.
    + intros s Hocc.
      pose proof (occurs_in_has_char "<" _ _ Hocc eq_refl) as H.
      rewrite preventXSS_clean in H by auto. discriminate.
Qed.

(** ** After the registration *)

Lemma fails_or_succeeds (s : settled) :
  (exists m, fails_with s m) \/ (exists r, succeeds s r).
Proof.
  destruct s as [m | r].
  - left. exists m. constructor.
  - destruct (ok r) eqn:Hok.
    + right. exists r. now split.
    + left. exists (text r). now constructor.
Qed.

Lemma upload_fails_or_succeeds (s : settled) :
  (exists m, upload_fails_with s m) \/ (exists r, succeeds s r).
Proof.
  destruct s as [m | r].
  - left. exists m. constructor.
  - destruct (ok r) eqn:Hok.
    + right. exists r. now split.
    + left. eexists. now constructor.
Qed.

Lemma reads_or_fails {A} (x : reading A) :
  (exists a, x = Reads a) \/ (exists m, x = Fails m).
Proof. destruct x; eauto. Qed.

Lemma submit_after (base : string) (after : response -> M unit) (w : world)
    (st : page) (evs : list event) (r : response) :
  registers base w st evs r ->
  onSubmit_with base after w st
  = try_catch_finally (after r) (fun err => alert (alert_text err))
      (set_disabled false) w (while_submitting st evs).
Proof.
  intros [f d r2 r3 Hf H1 H2 H3 | r0 Hf H0].
  - now apply (submit_registered base after w st f Hf d r2 r3).
  - now apply submit_registered_nofile.
Qed.

Section AfterRegistration.

Variable w : world.
Variable st : page.
Variable evs : list event.

Ltac run :=
  repeat progress
    unfold try_catch_finally, bind, form_reset, getPosts_with, prependPost,
      insertAdjacentHTML_afterbegin, set_innerHTML, set_disabled, fetch,
      read, throw, alert, ret, record, while_submitting;
  cbn [log textarea files disabled list_view fst snd negb].

Ltac simp := cbn [log textarea files disabled list_view fst snd negb].

(* Both sides as one list, appended to the right. *)
Ltac lists :=
  rewrite ?requests_app; cbn [requests];
  rewrite ?app_nil_r, <- ?app_assoc; cbn [app]; reflexivity.

(** app.js 97-98 *)
Let web_after : M unit := form_reset ;;; Web.getPosts.

(** part_000 157-160 *)
Let prepend_after (res : response) : M unit :=
  newPost <- read (as_post res) ;; prependPost newPost ;;; form_reset.

Let finish (body : M unit) : completion unit * page :=
  try_catch_finally body (fun err => alert (alert_text err))
    (set_disabled false) w (while_submitting st evs).

Lemma web_after_renders (r : response) (data : list post) :
  succeeds (w (requests (log st ++ evs)) list_request) r ->
  as_envelope r = Reads data ->
  finish web_after
  = (Return tt,
     mkPage "" [] false [render_posts data]
       (log st ++ evs ++ [Fetch list_request])%list).
Proof.
  intros [H Hok] Hd. unfold finish, web_after, Web.getPosts, list_request in *.
  run. rewrite H. cbn. rewrite Hok. cbn. rewrite Hd. cbn.
  now rewrite <- app_assoc.
Qed.

Lemma web_after_calls :
  requests (log (snd (finish web_after)))
  = (requests (log st ++ evs) ++ [list_request])%list.
Proof.
  unfold finish, web_after, Web.getPosts, list_request. run.
  destruct (w _ _) as [m | r]; simp; [lists |].
  destruct (ok r); simp; [destruct (as_envelope r); simp |]; lists.
Qed.

Lemma web_after_log :
  exists rest, log (snd (finish web_after)) = (log st ++ evs ++ rest)%list.
Proof.
  unfold finish, web_after, Web.getPosts, list_request. run.
  destruct (w _ _) as [m | r]; simp;
    [eexists; rewrite <- ?app_assoc; reflexivity |].
  destruct (ok r); simp; [destruct (as_envelope r); simp |];
    eexists; rewrite <- ?app_assoc; reflexivity.
Qed.

Lemma prepend_after_inserts (r : response) (p : post) :
  as_post r = Reads p ->
  finish (prepend_after r)
  = (Return tt,
     mkPage "" [] false (render_post p :: list_view st) (log st ++ evs)%list).
Proof.
  intros Hp. unfold finish, prepend_after. run. rewrite Hp. reflexivity.
Qed.

Lemma prepend_after_unreadable (r : response) (m : string) :
  as_post r = Fails m ->
  finish (prepend_after r)
  = (Return tt, after_events st (evs ++ [Alert (alert_text m)])).
Proof.
  intros Hp. unfold finish, prepend_after, after_events. run. rewrite Hp.
  cbn. now rewrite <- app_assoc.
Qed.

Lemma prepend_after_calls (r : response) :
  requests (log (snd (finish (prepend_after r)))) = requests (log st ++ evs).
Proof.
  destruct (reads_or_fails (as_post r)) as [(p & Hp) | (m & Hp)].
  - now rewrite (prepend_after_inserts r p Hp).
  - rewrite (prepend_after_unreadable r m Hp). unfold after_events.
    cbn [snd log]. lists.
Qed.

End AfterRegistration.

(** ** The submission as a whole *)

(* The two scripts, one after the other. *)
Ltac variants Hin :=
  cbn in Hin; destruct Hin as [Hin | [Hin | []]]; inversion Hin; subst;
  clear Hin; [unfold Web.onSubmit | unfold Prepend.onSubmit].

(* The requests of a log that is given event by event. *)
Ltac calls :=
  unfold after_events, while_submitting; cbn [snd log];
  rewrite ?requests_app; cbn [requests];
  rewrite ?app_nil_r, <- ?app_assoc; cbn [app]; reflexivity.

(** C1, as the scripts have it.  With a file selected, the requests of a
    submission are, in this order and with nothing before or between them,
    the presign request, the upload to the address of the descriptor (its
    form holds every entry of [fields] under its key and with its value,
    in their order, then the file under [file]) and the registration; each
    is issued only if the one before it succeeded.  After a registration
    that succeeded, app.js issues one request more, the fetch of the list,
    and part_000 none. *)
Theorem submission_calls_in_order :
  forall (w : world) (st : page) (f : file),
    hd_error (files st) = Some f ->
    forall onSubmit base refetch,
      In (onSubmit, base, refetch) presign_variants ->
      let h := requests (log st) in
      let rq1 := presign_request base f in
      let rq2 := fun d => upload_request d f in
      let rq3 :=
        fun d => register_request base (trim (textarea st)) (JStr (key d)) in
      let issued := requests (log (snd (onSubmit w st))) in
      (forall d,
         rq2 d
         = mkRequest (url d) "POST" []
             (FormBody
                (map (fun kv => (fst kv, Text (snd kv))) (fields d)
                 ++ [("file", Blob f)])%list))
      /\ (forall m,
            fails_with (w h rq1) m \/ unreadable as_descriptor (w h rq1) m ->
            issued = (h ++ [rq1])%list)
      /\ (forall d m,
            answers as_descriptor (w h rq1) d ->
            upload_fails_with (w (h ++ [rq1])%list (rq2 d)) m ->
            issued = (h ++ [rq1; rq2 d])%list)
      /\ (forall d r2 m,
            answers as_descriptor (w h rq1) d ->
            succeeds (w (h ++ [rq1])%list (rq2 d)) r2 ->
            fails_with (w (h ++ [rq1; rq2 d])%list (rq3 d)) m ->
            issued = (h ++ [rq1; rq2 d; rq3 d])%list)
      /\ (forall d r2 r3,
            answers as_descriptor (w h rq1) d ->
            succeeds (w (h ++ [rq1])%list (rq2 d)) r2 ->
            succeeds (w (h ++ [rq1; rq2 d])%list (rq3 d)) r3 ->
            issued
            = (h ++ [rq1; rq2 d; rq3 d]
                 ++ (if refetch then [list_request] else []))%list).
Proof.
  intros w st f Hf onSubmit base refetch Hin h rq1 rq2 rq3 issued.
  subst h rq1 rq2 rq3 issued.
  split.
  { intros d. unfold upload_request, POST_form.
    now rewrite upload_form_entries. }
  variants Hin.
  - split; [| split; [| split]].
    + intros m H. rewrite (submit_presign_fails _ _ w st f Hf m H). calls.
    + intros d m H1 H2.
      rewrite (submit_upload_fails _ _ w st f Hf d m H1 H2). calls.
    + intros d r2 m H1 H2 H3.
      rewrite (submit_register_fails _ _ w st f Hf d r2 m H1 H2 H3). calls.
    + intros d r2 r3 H1 H2 H3.
      rewrite (submit_registered _ _ w st f Hf d r2 r3 H1 H2 H3).
      rewrite web_after_calls. calls.
  - split; [| split; [| split]].
    + intros m H. rewrite (submit_presign_fails _ _ w st f Hf m H). calls.
    + intros d m H1 H2.
      rewrite (submit_upload_fails _ _ w st f Hf d m H1 H2). calls.
    + intros d r2 m H1 H2 H3.
      rewrite (submit_register_fails _ _ w st f Hf d r2 m H1 H2 H3). calls.
    + intros d r2 r3 H1 H2 H3.
      rewrite (submit_registered _ _ w st f Hf d r2 r3 H1 H2 H3).
      rewrite prepend_after_calls. calls.
Qed.

Lemma submission_calls_in_order_witness :
  hd_error (files (page_with [sample_file])) = Some sample_file
  /\ requests (log (snd (Prepend.onSubmit kind_world (page_with [sample_file]))))
     = [ presign_request "" sample_file;
         upload_request sample_descriptor sample_file;
         register_request "" "hello <b>" (JStr "uploads/cat.png") ]
  /\ requests
       (log (snd (Web.onSubmit (world_failing_at 1 (Resolves (answer 403 "no")))
                    (page_with [sample_file]))))
     = [ presign_request Web.API_BASE sample_file;
         upload_request sample_descriptor sample_file ].
Proof.
  split; [reflexivity |].
  split.
  - apply (proj2 (proj2 (proj2 (proj2
             (submission_calls_in_order kind_world (page_with [sample_file])
                sample_file eq_refl Prepend.onSubmit "" false
                (or_intror (or_introl eq_refl))))))
           sample_descriptor (answer 200 "ok") (answer 200 "ok")).
    + exists (answer 200 "ok"). repeat split.
    + split; reflexivity.
    + split; reflexivity.
  - apply (proj1 (proj2 (proj2
             (submission_calls_in_order
                (world_failing_at 1 (Resolves (answer 403 "no")))
                (page_with [sample_file]) sample_file eq_refl Web.onSubmit
                Web.API_BASE true (or_introl eq_refl))))
           sample_descriptor ("上傳到 S3 失敗: 403")).
    + exists (answer 200 "ok"). repeat split.
    + exact (upload_refused (answer 403 "no") eq_refl).
Defined.

(** C1 as it is worded fails on app.js: with a file selected and the three
    steps succeeding, the handler issues four requests, the fourth being
    the fetch of the list of app.js 98. *)
Lemma web_submission_issues_a_fourth_call :
  hd_error (files (page_with [sample_file])) = Some sample_file
  /\ answers as_descriptor
       (kind_world [] (presign_request Web.API_BASE sample_file))
       sample_descriptor
  /\ succeeds
       (kind_world [presign_request Web.API_BASE sample_file]
          (upload_request sample_descriptor sample_file))
       (answer 200 "ok")
  /\ succeeds
       (kind_world
          [ presign_request Web.API_BASE sample_file;
            upload_request sample_descriptor sample_file ]
          (register_request Web.API_BASE "hello <b>" (JStr "uploads/cat.png")))
       (answer 200 "ok")
  /\ requests (log (snd (Web.onSubmit kind_world (page_with [sample_file]))))
     = [ presign_request Web.API_BASE sample_file;
         upload_request sample_descriptor sample_file;
         register_request Web.API_BASE "hello <b>" (JStr "uploads/cat.png");
         GET "/api/posts" ]
  /\ List.length
       (requests (log (snd (Web.onSubmit kind_world (page_with [sample_file])))))
     <> 3%nat.
Proof.
  split; [reflexivity |].
  split; [exists (answer 200 "ok"); repeat split |].
  split; [split; reflexivity |].
  split; [split; reflexivity |].
  split; [reflexivity |].
  cbv. discriminate.
Qed.

(** C3. With no file selected, the first request of a submission is the
    registration, whose body is the message and [image_key: null]; the
    only request that may follow it is the fetch of the list.  So no
    request of the submission goes to the presign endpoint and none
    carries a form, which is what an upload to the storage does. *)
Theorem no_file_registers_null_key :
  forall (w : world) (st : page),
    hd_error (files st) = None ->
    forall onSubmit base refetch,
      In (onSubmit, base, refetch) presign_variants ->
      exists tail,
        requests (log (snd (onSubmit w st)))
        = (requests (log st)
             ++ mkRequest (base ++ "/api/posts") "POST"
                  [("Content-Type", "application/json")]
                  (JsonBody
                     [ ("message", JStr (trim (textarea st)));
                       ("image_key", JNull) ])
             :: tail)%list
        /\ (tail = [] \/ tail = [list_request])
        /\ Forall
             (fun rq =>
                req_url rq <> base ++ "/api/presign"
                /\ forall fd, req_body rq <> FormBody fd)
             (register_request base (trim (textarea st)) JNull :: tail).
Proof.
  intros w st Hf onSubmit base refetch Hin.
  change (mkRequest (base ++ "/api/posts") "POST"
            [("Content-Type", "application/json")]
            (JsonBody
               [ ("message", JStr (trim (textarea st)));
                 ("image_key", JNull) ]))
    with (register_request base (trim (textarea st)) JNull).
  destruct (fails_or_succeeds
              (w (requests (log st))
                 (register_request base (trim (textarea st)) JNull)))
    as [(m & H) | (r & H)].
  - exists []. split; [| split; [now left |]].
    + variants Hin;
        rewrite (submit_register_fails_nofile _ _ w st Hf m H); calls.
    + constructor; [| constructor].
      variants Hin; (split; [cbv; discriminate | intros fd; discriminate]).
  - variants Hin.
    + exists [list_request]. split; [| split; [now right |]].
      * rewrite (submit_registered_nofile _ _ w st Hf r H).
        rewrite web_after_calls. calls.
      * repeat constructor; try (intros fd; discriminate);
          cbv; discriminate.
    + exists []. split; [| split; [now left |]].
      * rewrite (submit_registered_nofile _ _ w st Hf r H).
        rewrite prepend_after_calls. calls.
      * repeat constructor; try (intros fd; discriminate);
          cbv; discriminate.
Qed.

Lemma no_file_registers_null_key_witness :
  hd_error (files (page_with [])) = None
  /\ exists tail,
       requests (log (snd (Web.onSubmit kind_world (page_with []))))
       = mkRequest "http://localhost:8000/api/posts" "POST"
           [("Content-Type", "application/json")]
           (JsonBody [("message", JStr "hello <b>"); ("image_key", JNull)])
         :: tail
       /\ (tail = [] \/ tail = [list_request]).
Proof.
  split; [reflexivity |].
  destruct (no_file_registers_null_key kind_world (page_with []) eq_refl
              Web.onSubmit Web.API_BASE true (or_introl eq_refl))
    as (tail & H1 & H2 & _).
  exists tail. split; [exact H1 | exact H2].
Defined.

Lemma alert_text_holds_message (m : string) : occurs_in m (alert_text m).
Proof. exists "上傳失敗: ", "". unfold alert_text. now rewrite append_empty_r. Qed.

(** C4. Whatever happens, the handler returns with the button enabled.
    When a step fails (the presign request, the upload or the
    registration, with or without a file), the requests of the steps up to
    that one are the only ones issued, no later step runs, and the log ends
    with the one alert of the submission, whose text holds the message of
    the failure; the text and the files of the form and the list are as
    they were. *)
Theorem failure_alerts_once_and_reenables :
  forall (w : world) (st : page) onSubmit base refetch,
    In (onSubmit, base, refetch) presign_variants ->
    let h := requests (log st) in
    let rq1 := fun f => presign_request base f in
    let rq2 := fun f d => upload_request d f in
    let rq3 := fun k => register_request base (trim (textarea st)) k in
    disabled (snd (onSubmit w st)) = false
    /\ fst (onSubmit w st) = Return tt
    /\ (forall m, occurs_in m (alert_text m))
    /\ (forall f m,
          hd_error (files st) = Some f ->
          fails_with (w h (rq1 f)) m
          \/ unreadable as_descriptor (w h (rq1 f)) m ->
          onSubmit w st
          = (Return tt,
             after_events st [Fetch (rq1 f); Alert (alert_text m)]))
    /\ (forall f d m,
          hd_error (files st) = Some f ->
          answers as_descriptor (w h (rq1 f)) d ->
          upload_fails_with (w (h ++ [rq1 f])%list (rq2 f d)) m ->
          onSubmit w st
          = (Return tt,
             after_events st
               [Fetch (rq1 f); Fetch (rq2 f d); Alert (alert_text m)]))
    /\ (forall f d r2 m,
          hd_error (files st) = Some f ->
          answers as_descriptor (w h (rq1 f)) d ->
          succeeds (w (h ++ [rq1 f])%list (rq2 f d)) r2 ->
          fails_with (w (h ++ [rq1 f; rq2 f d])%list (rq3 (JStr (key d)))) m ->
          onSubmit w st
          = (Return tt,
             after_events st
               [ Fetch (rq1 f); Fetch (rq2 f d); Fetch (rq3 (JStr (key d)));
                 Alert (alert_text m) ]))
    /\ (forall m,
          hd_error (files st) = None ->
          fails_with (w h (rq3 JNull)) m ->
          onSubmit w st
          = (Return tt,
             after_events st [Fetch (rq3 JNull); Alert (alert_text m)])).
Proof.
  intros w st onSubmit base refetch Hin h rq1 rq2 rq3.
  subst h rq1 rq2 rq3.
  variants Hin.
  - split; [apply submit_enables |].
    split; [apply submit_returns |].
    split; [exact alert_text_holds_message |].
    split; [intros f m Hf H; now apply submit_presign_fails |].
    split; [intros f d m Hf H1 H2; now apply submit_upload_fails |].
    split; [intros f d r2 m Hf H1 H2 H3;
            now apply (submit_register_fails _ _ w st f Hf d r2 m) |].
    intros m Hf H. now apply submit_register_fails_nofile.
  - split; [apply submit_enables |].
    split; [apply submit_returns |].
    split; [exact alert_text_holds_message |].
    split; [intros f m Hf H; now apply submit_presign_fails |].
    split; [intros f d m Hf H1 H2; now apply submit_upload_fails |].
    split; [intros f d r2 m Hf H1 H2 H3;
            now apply (submit_register_fails _ _ w st f Hf d r2 m) |].
    intros m Hf H. now apply submit_register_fails_nofile.
Qed.

Lemma failure_alerts_once_and_reenables_witness :
  Web.onSubmit (world_failing_at 0 (Resolves (answer 500 "S3 is not set up")))
    (page_with [sample_file])
  = (Return tt,
     mkPage "  hello <b>  " [sample_file] false ["<p>earlier</p>"]
       [ Fetch (presign_request Web.API_BASE sample_file);
         Alert "上傳失敗: S3 is not set up" ])
  /\ Prepend.onSubmit (world_failing_at 2 (Rejects "Failed to fetch"))
       (page_with [sample_file])
     = (Return tt,
        mkPage "  hello <b>  " [sample_file] false ["<p>earlier</p>"]
          [ Fetch (presign_request "" sample_file);
            Fetch (upload_request sample_descriptor sample_file);
            Fetch (register_request "" "hello <b>" (JStr "uploads/cat.png"));
            Alert "上傳失敗: Failed to fetch" ]).
Proof.
  split.
  - apply (proj1 (proj2 (proj2 (proj2
             (failure_alerts_once_and_reenables
                (world_failing_at 0 (Resolves (answer 500 "S3 is not set up")))
                (page_with [sample_file]) Web.onSubmit Web.API_BASE true
                (or_introl eq_refl)))))
           sample_file "S3 is not set up" eq_refl).
    left. exact (refused (answer 500 "S3 is not set up") eq_refl).
  - apply (proj1 (proj2 (proj2 (proj2 (proj2 (proj2
             (failure_alerts_once_and_reenables
                (world_failing_at 2 (Rejects "Failed to fetch"))
                (page_with [sample_file]) Prepend.onSubmit "" false
                (or_intror (or_introl eq_refl))))))))
           sample_file sample_descriptor (answer 200 "ok") "Failed to fetch"
           eq_refl).
    + exists (answer 200 "ok"). repeat split.
    + split; reflexivity.
    + exact (rejected "Failed to fetch").
Defined.

Lemma presign_fails_or_answers (s : settled) :
  (exists m, fails_with s m \/ unreadable as_descriptor s m)
  \/ (exists d, answers as_descriptor s d).
Proof.
  destruct (fails_or_succeeds s) as [(m & H) | (r & H)]; [left; eauto |].
  destruct (reads_or_fails (as_descriptor r)) as [(d & Hd) | (m & Hd)].
  - right. exists d, r. now split.
  - left. exists m. right. exists r. now split.
Qed.

(** With a file selected the presign request is the first thing a
    submission does, whatever follows. *)
Lemma submit_starts_with_presign (base : string) (after : response -> M unit)
    (w : world) (st : page) (f : file) :
  hd_error (files st) = Some f ->
  (forall r evs, exists rest,
      log (snd (try_catch_finally (after r) (fun err => alert (alert_text err))
                  (set_disabled false) w (while_submitting st evs)))
      = (log st ++ evs ++ rest)%list) ->
  exists rest,
    log (snd (onSubmit_with base after w st))
    = (log st ++ Fetch (presign_request base f) :: rest)%list.
Proof.
  intros Hf Hafter.
  destruct (presign_fails_or_answers
              (w (requests (log st)) (presign_request base f)))
    as [(m & H1) | (d & H1)].
  { rewrite (submit_presign_fails base after w st f Hf m H1).
    eexists. reflexivity. }
  destruct (upload_fails_or_succeeds
              (w (requests (log st) ++ [presign_request base f])%list
                 (upload_request d f)))
    as [(m & H2) | (r2 & H2)].
  { rewrite (submit_upload_fails base after w st f Hf d m H1 H2).
    eexists. reflexivity. }
  destruct (fails_or_succeeds
              (w (requests (log st)
                    ++ [presign_request base f; upload_request d f])%list
                 (register_request base (trim (textarea st)) (JStr (key d)))))
    as [(m & H3) | (r3 & H3)].
  { rewrite (submit_register_fails base after w st f Hf d r2 m H1 H2 H3).
    eexists. reflexivity. }
  rewrite (submit_registered base after w st f Hf d r2 r3 H1 H2 H3).
  destruct (Hafter r3
              [ Fetch (presign_request base f);
                Fetch (upload_request d f);
                Fetch (register_request base (trim (textarea st))
                         (JStr (key d))) ])
    as (rest & ->).
  eexists. reflexivity.
Qed.

Lemma prepend_after_log (w : world) (st : page) (evs : list event)
    (r : response) :
  exists rest,
    log (snd (try_catch_finally
                (newPost <- read (as_post r) ;; prependPost newPost ;;; form_reset)
                (fun err => alert (alert_text err)) (set_disabled false) w
                (while_submitting st evs)))
    = (log st ++ evs ++ rest)%list.
Proof.
  destruct (reads_or_fails (as_post r)) as [(p & Hp) | (m & Hp)].
  - rewrite (prepend_after_inserts w st evs r p Hp). exists [].
    cbn [snd log]. now rewrite app_nil_r.
  - rewrite (prepend_after_unreadable w st evs r m Hp).
    eexists. unfold after_events. cbn [snd log]. reflexivity.
Qed.

Lemma or_else_default (a b : string) :
  or_else a b = if String.eqb a "" then b else a.
Proof. destruct a; reflexivity. Qed.

(** C6, as the scripts have it.  With a file selected, the first effect of
    a submission is the presign request, a POST of JSON whose body is the
    object of the three keys [filename], [content_type] and [size]:
    [filename] is the name of the file, [size] its size, and
    [content_type] its declared type when that is not empty and
    [application/octet-stream] when the file declares none. *)
Theorem presign_body_describes_file :
  forall (w : world) (st : page) (f : file),
    hd_error (files st) = Some f ->
    forall onSubmit base refetch,
      In (onSubmit, base, refetch) presign_variants ->
      (exists rest,
         log (snd (onSubmit w st))
         = (log st
              ++ Fetch
                   (mkRequest (base ++ "/api/presign") "POST"
                      [("Content-Type", "application/json")]
                      (JsonBody
                         [ ("filename", JStr (name f));
                           ("content_type",
                            JStr (if String.eqb (type f) ""
                                  then "application/octet-stream"
                                  else type f));
                           ("size", JNum (size f)) ]))
              :: rest)%list)
      /\ (type f <> "" -> presign_body f = declared_type_body f).
Proof.
  intros w st f Hf onSubmit base refetch Hin. split.
  - rewrite <- or_else_default.
    change (mkRequest _ _ _ _) with (presign_request base f).
    variants Hin; apply submit_starts_with_presign; trivial; intros r evs.
    + apply web_after_log.
    + apply prepend_after_log.
  - intros Ht. unfold presign_body, declared_type_body.
    rewrite or_else_default.
    destruct (String.eqb_spec (type f) ""); congruence.
Qed.

Lemma presign_body_describes_file_witness :
  hd_error (files (page_with [untyped_file])) = Some untyped_file
  /\ exists rest,
       log (snd (Prepend.onSubmit kind_world (page_with [untyped_file])))
       = Fetch
           (mkRequest "/api/presign" "POST"
              [("Content-Type", "application/json")]
              (JsonBody
                 [ ("filename", JStr "notes");
                   ("content_type", JStr "application/octet-stream");
                   ("size", JNum 12) ]))
         :: rest.
Proof.
  split; [reflexivity |].
  exact (proj1 (presign_body_describes_file kind_world
                  (page_with [untyped_file]) untyped_file eq_refl
                  Prepend.onSubmit "" false (or_intror (or_introl eq_refl)))).
Defined.

(** C6 as it is worded fails: for a file that declares no type, the
    [content_type] of the presign request is not the declared type (the
    empty string) but [application/octet-stream]. *)
Lemma untyped_file_is_sent_as_octet_stream :
  hd_error (files (page_with [untyped_file])) = Some untyped_file
  /\ type untyped_file = ""
  /\ hd_error
       (requests (log (snd (Web.onSubmit kind_world (page_with [untyped_file])))))
     = Some
         (POST_json "http://localhost:8000/api/presign"
            [ ("filename", JStr "notes");
              ("content_type", JStr "application/octet-stream");
              ("size", JNum 12) ])
  /\ presign_body untyped_file <> declared_type_body untyped_file.
Proof.
  repeat split. discriminate.
Qed.





(** * Further properties *)

(** ** More on the escaping function *)

Lemma string_length_append (a b : string) :
  String.length (a ++ b) = (String.length a + String.length b)%nat.
Proof. induction a as [|x a IH]; simpl; [reflexivity | now rewrite IH]. Qed.

(** The six ways a character is escaped. *)
Lemma spec_escape_cases (c : ascii) :
  (c = "&"%char /\ spec_escape c = "&amp;")
  \/ (c = "<"%char /\ spec_escape c = "&lt;")
  \/ (c = ">"%char /\ spec_escape c = "&gt;")
  \/ (c = dq_char /\ spec_escape c = "&quot;")
  \/ (c = "'"%char /\ spec_escape c = "&#39;")
  \/ (xss_class c = false /\ spec_escape c = String c "").
Proof.
  destruct (xss_class c) eqn:Hc.
  - unfold xss_class in Hc. unfold spec_escape.
    destruct (Ascii.eqb_spec c "&") as [E | _]; [now left |].
    destruct (Ascii.eqb_spec c "<") as [E | _]; [now right; left |].
    destruct (Ascii.eqb_spec c ">") as [E | _]; [now right; right; left |].
    destruct (Ascii.eqb_spec c dq_char) as [E | _];
      [now right; right; right; left |].
    destruct (Ascii.eqb_spec c "'") as [E | _];
      [now right; right; right; right; left |].
    discriminate.
  - do 5 right. split; [reflexivity | now apply spec_escape_other].
Qed.

Lemma spec_escape_length (c : ascii) :
  (if xss_class c then 4 <= String.length (spec_escape c) <= 6
   else String.length (spec_escape c) = 1)%nat.
Proof.
  destruct (spec_escape_cases c) as [[-> ->]|[[-> ->]|[[-> ->]|[[-> ->]|[[-> ->]|[Hc ->]]]]]];
    try (cbn; lia).
  rewrite Hc. reflexivity.
Qed.

Lemma preventXSS_length (s : string) :
  (String.length s <= String.length (preventXSS s) <= 6 * String.length s)%nat
  /\ (needs_escape s = true ->
      (String.length s < String.length (preventXSS s))%nat).
Proof.
  induction s as [|c s [IH1 IH2]]; [split; [cbn; lia | discriminate] |].
  rewrite preventXSS_step, string_length_append. cbn [String.length needs_escape].
  pose proof (spec_escape_length c) as Hc.
  destruct (xss_class c); cbn [orb]; split; try lia.
  intros H. specialize (IH2 H). lia.
Qed.

Lemma preventXSS_plain (s : string) :
  needs_escape s = false -> preventXSS s = s.
Proof.
  induction s as [|c s IH]; [reflexivity |].
  cbn [needs_escape]. intros H. apply orb_false_elim in H as [Hc Hs].
  rewrite preventXSS_step, (spec_escape_other c Hc), (IH Hs). reflexivity.
Qed.

(** X1. [preventXSS] gives a text back unchanged exactly when the text holds
    none of the five characters; otherwise the result is strictly longer.
    In every case the result is at least as long as the text and at most
    six times as long. *)
Theorem preventXSS_unchanged_iff_plain :
  forall s,
    (preventXSS s = s <-> needs_escape s = false)
    /\ (needs_escape s = true ->
        (String.length s < String.length (preventXSS s))%nat)
    /\ (String.length s <= String.length (preventXSS s)
        <= 6 * String.length s)%nat.
Proof.
  intros s. destruct (preventXSS_length s) as [Hb Hlt].
  split; [| split; [exact Hlt | exact Hb]].
  split; [| apply preventXSS_plain].
  intros E. destruct (needs_escape s) eqn:Hn; [| reflexivity].
  specialize (Hlt eq_refl). rewrite E in Hlt. lia.
Qed.

Lemma spec_escape_all_injective (s t : string) :
  spec_escape_all s = spec_escape_all t -> s = t.
Proof.
  revert t. induction s as [|c s IH]; intros [|d t] H.
  - reflexivity.
  - exfalso. cbn [spec_escape_all] in H.
    destruct (spec_escape_cases d) as [[_ E]|[[_ E]|[[_ E]|[[_ E]|[[_ E]|[_ E]]]]]];
      rewrite E in H; discriminate.
  - exfalso. cbn [spec_escape_all] in H.
    destruct (spec_escape_cases c) as [[_ E]|[[_ E]|[[_ E]|[[_ E]|[[_ E]|[_ E]]]]]];
      rewrite E in H; discriminate.
  - cbn [spec_escape_all] in H.
    destruct (spec_escape_cases c) as [[Hc E]|[[Hc E]|[[Hc E]|[[Hc E]|[[Hc E]|[Hc E]]]]]];
      destruct (spec_escape_cases d) as [[Hd F]|[[Hd F]|[[Hd F]|[[Hd F]|[[Hd F]|[Hd F]]]]]];
      rewrite E, F in H; cbn in H;
      try discriminate;
      try (injection H as H; subst; f_equal; now apply IH);
      try (injection H as H1 H; subst; discriminate).
Qed.

(** X2. [preventXSS] loses nothing: two texts that differ are escaped to
    texts that differ, so a reader of the page can tell which message was
    posted. *)
Theorem preventXSS_injective :
  forall s t, preventXSS s = preventXSS t -> s = t.
Proof.
  intros s t H. rewrite !preventXSS_refines in H.
  now apply spec_escape_all_injective.
Qed.

Lemma preventXSS_injective_witness :
  preventXSS "a&b" = preventXSS "a&b" /\ "a&b" = "a&b".
Proof.
  split; [reflexivity |].
  exact (preventXSS_injective "a&b" "a&b" eq_refl).
Defined.

(** ** More on fetching the list *)

(* A copy of [getPosts] is the shared text at some placeholder. *)
Ltac copy_of_getPosts Hin :=
  let E := fresh "E" in
  cbn in Hin;
  destruct Hin as [E | [E | [E | [E | []]]]]; inversion E; subst; clear E.

Lemma render_posts_empty (data : list post) :
  render_posts data = "" <-> data = [].
Proof.
  split; [| now intros ->].
  destruct data as [|p data]; [reflexivity |].
  rewrite render_posts_cons. discriminate.
Qed.

(** X3. After a fetch that succeeded, the list holds no markup at all
    exactly when the collection of the answer is empty: an empty
    collection empties the list (the placeholder is not shown for it), and
    a collection with a post never does. *)
Theorem getPosts_empties_list_iff_no_posts :
  forall (w : world) (st : page) (r : response) (data : list post),
    succeeds (w (requests (log st)) list_request) r ->
    as_envelope r = Reads data ->
    forall getPosts ph, In (getPosts, ph) all_getPosts ->
      (list_view (snd (getPosts w st)) = [""] <-> data = [])
      /\ list_view (snd (getPosts w st)) <> [ph].
Proof.
  intros w st r data Hs Hd g ph Hin.
  copy_of_getPosts Hin;
    match goal with
    | |- context [?g w st] =>
        unfold g; rewrite (getPosts_renders _ w st r data Hs Hd)
    end;
    cbn [snd list_view];
    (split;
     [ split;
       [ intros H; injection H as H; now apply render_posts_empty
       | intros ->; reflexivity ]
     | intros H; injection H as H;
       destruct data as [|p data]; [discriminate |];
       rewrite render_posts_cons in H; discriminate ]).
Qed.

Lemma getPosts_empties_list_iff_no_posts_witness :
  list_view
    (snd (Multipart.getPosts
            (fun _ _ =>
               Resolves (mkResponse 200 "" (Reads []) (Fails "") (Fails "")))
            (page_with [])))
  = [""].
Proof.
  apply (proj1 (getPosts_empties_list_iff_no_posts
                  (fun _ _ =>
                     Resolves (mkResponse 200 "" (Reads []) (Fails "") (Fails "")))
                  (page_with [])
                  (mkResponse 200 "" (Reads []) (Fails "") (Fails "")) []
                  (conj eq_refl eq_refl) eq_refl Multipart.getPosts
                  placeholder_text
                  (or_intror (or_intror (or_introl eq_refl))))).
  reflexivity.
Defined.

(** X4. When the fetch of the collection is rejected, or is answered with
    success and a body that cannot be read, every copy of [getPosts] throws
    the message of that failure after its one request: the list keeps what
    it showed, no placeholder replaces it and nothing else of the page
    changes. *)
Theorem getPosts_throws_and_keeps_list :
  forall (w : world) (st : page) (m : string),
    w (requests (log st)) list_request = Rejects m
    \/ unreadable as_envelope (w (requests (log st)) list_request) m ->
    forall getPosts ph, In (getPosts, ph) all_getPosts ->
      getPosts w st
      = (Throw m,
         mkPage (textarea st) (files st) (disabled st) (list_view st)
           (log st ++ [Fetch list_request])%list).
Proof.
  intros w st m H g ph Hin.
  copy_of_getPosts Hin; now apply getPosts_throws.
Qed.

Lemma getPosts_throws_and_keeps_list_witness :
  Web.getPosts (world_failing_at 0 (Rejects "Failed to fetch")) (page_with [])
  = (Throw "Failed to fetch",
     mkPage "  hello <b>  " [] false ["<p>earlier</p>"] [Fetch list_request]).
Proof.
  exact (getPosts_throws_and_keeps_list
           (world_failing_at 0 (Rejects "Failed to fetch")) (page_with [])
           "Failed to fetch" (or_introl eq_refl) Web.getPosts
           placeholder_block (or_introl eq_refl)).
Defined.

(** X5. A fetch of the list that is answered, with a collection or with
    another status than success, overwrites what [prependPost] put in the
    list: fetching after a prepend leaves the page exactly as fetching
    without it. *)
Theorem getPosts_overwrites_prepended_block :
  forall (p : post) (w : world) (st : page) (r : response),
    w (requests (log st)) list_request = Resolves r ->
    ok r = false \/ (exists data, as_envelope r = Reads data) ->
    forall getPosts ph, In (getPosts, ph) all_getPosts ->
      getPosts w (snd (prependPost p w st)) = getPosts w st.
Proof.
  intros p w st r H Hr g ph Hin.
  assert (Hg : exists ph', g = getPosts_with ph')
    by (copy_of_getPosts Hin; eexists; reflexivity).
  destruct Hg as (ph' & ->).
  destruct Hr as [Hok | (data & Hd)].
  - rewrite (getPosts_gives_up ph' w st r H Hok).
    now rewrite (getPosts_gives_up ph' w (snd (prependPost p w st)) r H Hok).
  - destruct (ok r) eqn:Hok.
    + rewrite (getPosts_renders ph' w st r data (conj H Hok) Hd).
      now rewrite (getPosts_renders ph' w (snd (prependPost p w st)) r data
                     (conj H Hok) Hd).
    + rewrite (getPosts_gives_up ph' w st r H Hok).
      now rewrite (getPosts_gives_up ph' w (snd (prependPost p w st)) r H Hok).
Qed.

Lemma getPosts_overwrites_prepended_block_witness :
  Prepend.getPosts kind_world (snd (prependPost hostile_post kind_world (page_with [])))
  = Prepend.getPosts kind_world (page_with []).
Proof.
  exact (getPosts_overwrites_prepended_block hostile_post kind_world
           (page_with []) (answer 200 "ok") eq_refl
           (or_intror (ex_intro _ [sample_post; older_post] eq_refl))
           Prepend.getPosts placeholder_block
           (or_intror (or_introl eq_refl))).
Defined.

(** ** More on what follows a registration *)

Section RefetchAfterRegistration.

Variable w : world.
Variable st : page.
Variable evs : list event.

Ltac run :=
  repeat progress
    unfold try_catch_finally, bind, form_reset, getPosts_with, set_innerHTML,
      set_disabled, fetch, read, throw, alert, ret, record, while_submitting;
  cbn [log textarea files disabled list_view fst snd negb].

Ltac simp := cbn [log textarea files disabled list_view fst snd negb].

Lemma web_after_placeholder (r : response) :
  w (requests (log st ++ evs)) list_request = Resolves r ->
  ok r = false ->
  try_catch_finally (form_reset ;;; Web.getPosts)
    (fun err => alert (alert_text err)) (set_disabled false) w
    (while_submitting st evs)
  = (Return tt,
     mkPage "" [] false [placeholder_block]
       (log st ++ evs ++ [Fetch list_request])%list).
Proof.
  intros H Hok. unfold Web.getPosts, list_request in *.
  run. rewrite H. simp. rewrite Hok. simp. now rewrite <- app_assoc.
Qed.

Lemma web_after_throws (m : string) :
  w (requests (log st ++ evs)) list_request = Rejects m
  \/ unreadable as_envelope (w (requests (log st ++ evs)) list_request) m ->
  try_catch_finally (form_reset ;;; Web.getPosts)
    (fun err => alert (alert_text err)) (set_disabled false) w
    (while_submitting st evs)
  = (Return tt,
     mkPage "" [] false (list_view st)
       (log st ++ evs ++ [Fetch list_request; Alert (alert_text m)])%list).
Proof.
  intros [H | (r & [H Hok] & Hd)]; unfold Web.getPosts, list_request in *;
    run; rewrite H; simp.
  - now rewrite <- !app_assoc.
  - rewrite Hok. simp. rewrite Hd. simp. now rewrite <- !app_assoc.
Qed.

End RefetchAfterRegistration.

(** X6. In app.js, when every step up to the registration succeeded but
    the fetch of the list that follows is rejected, or answered with a body
    that cannot be read, the handler shows the alert of a failed upload
    with the message of that fetch although the post is registered: the
    form is already cleared, the list keeps what it showed and the button
    is enabled. *)
Theorem web_refetch_failure_is_reported_as_upload_failure :
  forall (w : world) (st : page) (evs : list event) (r : response)
         (m : string),
    registers Web.API_BASE w st evs r ->
    w (requests (log st ++ evs)) list_request = Rejects m
    \/ unreadable as_envelope (w (requests (log st ++ evs)) list_request) m ->
    Web.onSubmit w st
    = (Return tt,
       mkPage "" [] false (list_view st)
         (log st ++ evs ++ [Fetch list_request; Alert (alert_text m)])%list).
Proof.
  intros w st evs r m Hreg H. unfold Web.onSubmit.
  rewrite (submit_after _ _ w st evs r Hreg).
  now apply web_after_throws.
Qed.

Lemma web_refetch_failure_is_reported_as_upload_failure_witness :
  Web.onSubmit (world_failing_at 1 (Rejects "Failed to fetch")) (page_with [])
  = (Return tt,
     mkPage "" [] false ["<p>earlier</p>"]
       [ Fetch (register_request Web.API_BASE "hello <b>" JNull);
         Fetch list_request;
         Alert "上傳失敗: Failed to fetch" ]).
Proof.
  apply (web_refetch_failure_is_reported_as_upload_failure
           (world_failing_at 1 (Rejects "Failed to fetch")) (page_with [])
           [Fetch (register_request Web.API_BASE "hello <b>" JNull)]
           (answer 200 "ok") "Failed to fetch").
  - apply (registers_without_file Web.API_BASE
             (world_failing_at 1 (Rejects "Failed to fetch")) (page_with [])
             (answer 200 "ok")).
    + reflexivity.
    + split; reflexivity.
  - left. reflexivity.
Defined.

(** X7. In app.js, when every step up to the registration succeeded and
    the fetch of the list that follows is answered with another status
    than success, the list is replaced by the placeholder of a failed
    fetch, so the post just registered is not shown; the form is cleared
    and no alert tells the user. *)
Theorem web_refetch_refusal_hides_the_list :
  forall (w : world) (st : page) (evs : list event) (r r' : response),
    registers Web.API_BASE w st evs r ->
    w (requests (log st ++ evs)) list_request = Resolves r' ->
    ok r' = false ->
    Web.onSubmit w st
    = (Return tt,
       mkPage "" [] false [placeholder_block]
         (log st ++ evs ++ [Fetch list_request])%list)
    /\ alerts (evs ++ [Fetch list_request]) = [].
Proof.
  intros w st evs r r' Hreg H Hok. split.
  - unfold Web.onSubmit. rewrite (submit_after _ _ w st evs r Hreg).
    now apply (web_after_placeholder w st evs r').
  - destruct Hreg; reflexivity.
Qed.

Lemma web_refetch_refusal_hides_the_list_witness :
  Web.onSubmit (world_failing_at 1 (Resolves (answer 503 "busy"))) (page_with [])
  = (Return tt,
     mkPage "" [] false [placeholder_block]
       [ Fetch (register_request Web.API_BASE "hello <b>" JNull);
         Fetch list_request ]).
Proof.
  apply (proj1 (web_refetch_refusal_hides_the_list
                  (world_failing_at 1 (Resolves (answer 503 "busy")))
                  (page_with [])
                  [Fetch (register_request Web.API_BASE "hello <b>" JNull)]
                  (answer 200 "ok") (answer 503 "busy")
                  (registers_without_file Web.API_BASE
                     (world_failing_at 1 (Resolves (answer 503 "busy")))
                     (page_with []) (answer 200 "ok") eq_refl
                     (conj eq_refl eq_refl))
                  eq_refl eq_refl)).
Defined.

(** X8. In part_000 48-168, when every step up to the registration
    succeeded but the body of its answer cannot be read as a post, the
    handler shows the alert of a failed upload although the post is
    registered; nothing is prepended and, unlike app.js in the like case,
    the form keeps its text and its file. *)
Theorem prepend_unreadable_answer_keeps_form :
  forall (w : world) (st : page) (evs : list event) (r : response)
         (m : string),
    registers "" w st evs r ->
    as_post r = Fails m ->
    Prepend.onSubmit w st
    = (Return tt, after_events st (evs ++ [Alert (alert_text m)])).
Proof.
  intros w st evs r m Hreg Hp. unfold Prepend.onSubmit.
  rewrite (submit_after _ _ w st evs r Hreg).
  now apply prepend_after_unreadable.
Qed.

Lemma prepend_unreadable_answer_keeps_form_witness :
  Prepend.onSubmit
    (fun _ _ =>
       Resolves (mkResponse 201 "" (Fails "e") (Fails "e")
                   (Fails "Unexpected end of JSON input")))
    (page_with [])
  = (Return tt,
     mkPage "  hello <b>  " [] false ["<p>earlier</p>"]
       [ Fetch (register_request "" "hello <b>" JNull);
         Alert "上傳失敗: Unexpected end of JSON input" ]).
Proof.
  apply (prepend_unreadable_answer_keeps_form
           (fun _ _ =>
              Resolves (mkResponse 201 "" (Fails "e") (Fails "e")
                          (Fails "Unexpected end of JSON input")))
           (page_with [])
           [Fetch (register_request "" "hello <b>" JNull)]
           (mkResponse 201 "" (Fails "e") (Fails "e")
              (Fails "Unexpected end of JSON input"))
           "Unexpected end of JSON input").
  - apply registers_without_file; [reflexivity | split; reflexivity].
  - reflexivity.
Defined.

(** ** Every way a submission can end *)

(* The requests of a submission up to the registration are POSTs. *)
Ltac all_posts :=
  let rq := fresh "rq" in
  let H := fresh "H" in
  intros rq H; cbn in H;
  repeat (destruct H as [H | H]; [subst rq; reflexivity |]);
  destruct H.

Lemma registers_requests (base : string) (w : world) (st : page)
    (evs : list event) (r : response) :
  registers base w st evs r ->
  exists rqs,
    evs = map Fetch rqs /\ (1 <= List.length rqs <= 3)%nat
    /\ (hd_error (files st) = None -> List.length rqs = 1%nat)
    /\ (forall rq, In rq rqs -> req_method rq = "POST").
Proof.
  intros [f d r2 r3 Hf _ _ _ | r0 Hf _].
  - eexists [_; _; _]. split; [reflexivity |].
    split; [cbn; lia |]. split; [congruence | all_posts].
  - eexists [_]. split; [reflexivity |].
    split; [cbn; lia |]. split; [reflexivity | all_posts].
Qed.



Lemma fails_not_succeeds (s : settled) (m : string) (r : response) :
  fails_with s m -> succeeds s r -> False.
Proof.
  intros Hf [Hs Hok]. destruct Hf as [m | r0 Hok0]; [discriminate |].
  injection Hs as ->. congruence.
Qed.

Lemma upload_fails_not_succeeds (s : settled) (m : string) (r : response) :
  upload_fails_with s m -> succeeds s r -> False.
Proof.
  intros Hf [Hs Hok]. destruct Hf as [m | r0 Hok0]; [discriminate |].
  injection Hs as ->. congruence.
Qed.

Lemma answers_once {A} (view : response -> reading A) (s : settled)
    (a a' : A) :
  answers view s a -> answers view s a' -> a = a'.
Proof.
  intros (r & [Hs _] & Hv) (r' & [Hs' _] & Hv').
  rewrite Hs in Hs'. injection Hs' as <-. congruence.
Qed.

Lemma presign_failure_not_answer (s : settled) (m : string) (d : descriptor) :
  fails_with s m \/ unreadable as_descriptor s m ->
  answers as_descriptor s d -> False.
Proof.
  intros [Hf | (r & [Hs _] & Hv)] (r' & Hs' & Hv').
  - exact (fails_not_succeeds s m r' Hf Hs').
  - destruct Hs' as [Hs' _]. rewrite Hs in Hs'. injection Hs' as <-.
    congruence.
Qed.

(** A step fails before the registration has succeeded, and then the
    steps do not all succeed; or they all do. *)
Lemma submit_fails_unregistered_or_registers (base : string)
    (after : response -> M unit) (w : world) (st : page) :
  (exists rqs m,
      onSubmit_with base after w st
      = (Return tt,
         after_events st (map Fetch rqs ++ [Alert (alert_text m)]))
      /\ (1 <= List.length rqs <= 3)%nat
      /\ (hd_error (files st) = None -> List.length rqs = 1%nat)
      /\ (forall rq, In rq rqs -> req_method rq = "POST")
      /\ (forall evs r, ~ registers base w st evs r))
  \/ (exists evs r, registers base w st evs r).
Proof.
  destruct (hd_error (files st)) as [f |] eqn:Hf.
  - destruct (presign_fails_or_answers
                (w (requests (log st)) (presign_request base f)))
      as [(m & H1) | (d & H1)].
    { left. eexists [_], m.
      split; [exact (submit_presign_fails base after w st f Hf m H1) |].
      split; [cbn; lia |]. split; [discriminate |]. split; [all_posts |].
      intros evs r [f' d' r2 r3 Hf' H1' _ _ | r0 Hf' _]; [| congruence].
      assert (f' = f) by congruence. subst f'.
      exact (presign_failure_not_answer _ m d' H1 H1'). }
    destruct (upload_fails_or_succeeds
                (w (requests (log st) ++ [presign_request base f])%list
                   (upload_request d f)))
      as [(m & H2) | (r2 & H2)].
    { left. eexists [_; _], m.
      split; [exact (submit_upload_fails base after w st f Hf d m H1 H2) |].
      split; [cbn; lia |]. split; [discriminate |]. split; [all_posts |].
      intros evs r [f' d' r2 r3 Hf' H1' H2' _ | r0 Hf' _]; [| congruence].
      assert (f' = f) by congruence. subst f'.
      assert (d' = d) by exact (answers_once _ _ d' d H1' H1). subst d'.
      exact (upload_fails_not_succeeds _ m r2 H2 H2'). }
    destruct (fails_or_succeeds
                (w (requests (log st)
                      ++ [presign_request base f; upload_request d f])%list
                   (register_request base (trim (textarea st))
                      (JStr (key d)))))
      as [(m & H3) | (r3 & H3)].
    { left. eexists [_; _; _], m.
      split;
        [exact (submit_register_fails base after w st f Hf d r2 m H1 H2 H3) |].
      split; [cbn; lia |]. split; [discriminate |]. split; [all_posts |].
      intros evs r [f' d' r2' r3 Hf' H1' _ H3' | r0 Hf' _]; [| congruence].
      assert (f' = f) by congruence. subst f'.
      assert (d' = d) by exact (answers_once _ _ d' d H1' H1). subst d'.
      exact (fails_not_succeeds _ m r3 H3 H3'). }
    right. do 2 eexists.
    exact (registers_with_file base w st f d r2 r3 Hf H1 H2 H3).
  - destruct (fails_or_succeeds
                (w (requests (log st))
                   (register_request base (trim (textarea st)) JNull)))
      as [(m & H) | (r & H)].
    { left. eexists [_], m.
      split; [exact (submit_register_fails_nofile base after w st Hf m H) |].
      split; [cbn; lia |]. split; [reflexivity |]. split; [all_posts |].
      intros evs r [f' d' r2 r3 Hf' _ _ _ | r0 _ H0]; [congruence |].
      exact (fails_not_succeeds _ m r0 H H0). }
    right. do 2 eexists.
    exact (registers_without_file base w st r Hf H).
Qed.

(** X10. A submission of app.js ends in one of four ways.  Either the
    steps up to the registration do not all succeed: then the list and the
    form are as they were and the log ends with the alert, after the
    requests of the steps that ran, none of them a fetch of the list.  Or
    they all succeed, the registration last, and then the form is cleared
    and the list is fetched, and the list is the rendering of the
    collection when the fetch reads one, the placeholder when the fetch is
    answered with another status than success, and what it was, with the
    log ending with the alert, when the fetch is rejected or cannot be
    read.  So a cleared form tells that the post is registered, an alert
    does not tell that it is not.  The button ends enabled, at most one
    alert is shown, and between one and four requests are issued (at most
    two when no file is selected), the fetch of the list being the last
    one and issued only after the registration succeeded. *)
Theorem web_submission_outcomes :
  forall (w : world) (st : page),
    exists rqs,
      (1 <= List.length rqs <= 3)%nat
      /\ (hd_error (files st) = None -> List.length rqs = 1%nat)
      /\ (forall rq, In rq rqs -> req_method rq = "POST")
      /\ (((forall evs r, ~ registers Web.API_BASE w st evs r)
           /\ exists m,
                Web.onSubmit w st
                = (Return tt,
                   after_events st
                     (map Fetch rqs ++ [Alert (alert_text m)])))
          \/ (exists r,
                registers Web.API_BASE w st (map Fetch rqs) r
                /\ ((exists r' data,
                       succeeds
                         (w (requests (log st ++ map Fetch rqs)) list_request)
                         r'
                       /\ as_envelope r' = Reads data
                       /\ Web.onSubmit w st
                          = (Return tt,
                             mkPage "" [] false [render_posts data]
                               (log st ++ map Fetch rqs
                                  ++ [Fetch list_request])%list))
                    \/ (exists r',
                          w (requests (log st ++ map Fetch rqs)) list_request
                          = Resolves r'
                          /\ ok r' = false
                          /\ Web.onSubmit w st
                             = (Return tt,
                                mkPage "" [] false [placeholder_block]
                                  (log st ++ map Fetch rqs
                                     ++ [Fetch list_request])%list))
                    \/ (exists m,
                          (w (requests (log st ++ map Fetch rqs)) list_request
                           = Rejects m
                           \/ unreadable as_envelope
                                (w (requests (log st ++ map Fetch rqs))
                                   list_request) m)
                          /\ Web.onSubmit w st
                             = (Return tt,
                                mkPage "" [] false (list_view st)
                                  (log st ++ map Fetch rqs
                                     ++ [ Fetch list_request;
                                          Alert (alert_text m) ])%list))))).
Proof.
  intros w st.
  destruct (submit_fails_unregistered_or_registers Web.API_BASE
              (fun _ => form_reset ;;; Web.getPosts) w st)
    as [(rqs & m & Hrun & Hlen & Hnone & Hpost & Hnot) | (evs & r & Hreg)].
  - exists rqs. repeat split; try lia; trivial.
    left. split; [exact Hnot |]. exists m. exact Hrun.
  - destruct (registers_requests _ w st evs r Hreg)
      as (rqs & -> & Hlen & Hnone & Hpost).
    exists rqs. repeat split; try lia; trivial.
    right. exists r. split; [exact Hreg |].
    unfold Web.onSubmit. rewrite (submit_after _ _ w st _ r Hreg).
    destruct (w (requests (log st ++ map Fetch rqs)) list_request)
      as [m | r'] eqn:Hget.
    { right. right. exists m. split; [now left |].
      apply web_after_throws. now left. }
    destruct (ok r') eqn:Hok.
    + destruct (reads_or_fails (as_envelope r')) as [(data & Hd) | (m & Hd)].
      * left. exists r', data. split; [now split |]. split; [exact Hd |].
        exact (web_after_renders w st _ r' data (conj Hget Hok) Hd).
      * right. right. exists m.
        assert (Hu : unreadable as_envelope (Resolves r') m)
          by (exists r'; now split).
        split; [now right |].
        apply web_after_throws. right. now rewrite Hget.
    + right. left. exists r'. split; [reflexivity |]. split; [exact Hok |].
      exact (web_after_placeholder w st _ r' Hget Hok).
Qed.

(** ** The message that is registered *)

Lemma list_ascii_of_string_append (a b : string) :
  list_ascii_of_string (a ++ b)
  = (list_ascii_of_string a ++ list_ascii_of_string b)%list.
Proof. induction a as [|c a IH]; cbn; [reflexivity | now rewrite IH]. Qed.

Lemma string_of_list_ascii_app (l1 l2 : list ascii) :
  string_of_list_ascii (l1 ++ l2)
  = string_of_list_ascii l1 ++ string_of_list_ascii l2.
Proof. induction l1 as [|c l1 IH]; cbn; [reflexivity | now rewrite IH]. Qed.

Lemma reverse_append (a b : string) :
  reverse (a ++ b) = reverse b ++ reverse a.
Proof.
  unfold reverse.
  now rewrite list_ascii_of_string_append, rev_app_distr,
    string_of_list_ascii_app.
Qed.

Lemma reverse_involutive (s : string) : reverse (reverse s) = s.
Proof.
  unfold reverse.
  now rewrite list_ascii_of_string_of_list_ascii, rev_involutive,
    string_of_list_ascii_of_string.
Qed.

Lemma blank_append (a b : string) : blank (a ++ b) = blank a && blank b.
Proof.
  induction a as [|c a IH]; cbn; [reflexivity | now rewrite IH, andb_assoc].
Qed.

Lemma blank_reverse (s : string) : blank (reverse s) = blank s.
Proof.
  induction s as [|c s IH]; [reflexivity |].
  change (String c s) with (String c "" ++ s) at 1.
  rewrite reverse_append, blank_append, IH. cbn.
  now rewrite andb_true_r, andb_comm.
Qed.

Lemma drop_ws_blank (flip : bool) (pad s : string) :
  blank pad = true -> drop_ws flip (pad ++ s) = drop_ws flip s.
Proof.
  induction pad as [|c pad IH]; [reflexivity |].
  cbn [blank]. intros H. apply andb_prop in H as [Hc Hpad].
  change (String c pad ++ s) with (String c (pad ++ s)).
  cbn [drop_ws]. rewrite Hc. now apply IH.
Qed.

Lemma plain_code (a : ascii) :
  plain a = true -> ws1 a = false /\ (code a < 128)%nat.
Proof.
  unfold plain. intros H. apply andb_prop in H as [H1 H2].
  apply Nat.ltb_lt in H1. apply negb_true_iff in H2. now split.
Qed.

Lemma drop_ws_plain (flip : bool) (a : ascii) (rest : string) :
  plain a = true -> drop_ws flip (String a rest) = String a rest.
Proof.
  intros H. apply plain_code in H as [Hws Hlt].
  assert (E : forall n, (128 <= n)%nat -> (code a =? n)%nat = false)
    by (intros n Hn; apply Nat.eqb_neq; lia).
  assert (L : forall n, (128 <= n)%nat -> (n <=? code a)%nat = false)
    by (intros n Hn; apply Nat.leb_gt; lia).
  cbn [drop_ws]. rewrite Hws.
  destruct rest as [|b [|c rest]]; try reflexivity.
  - unfold ws2. destruct flip; rewrite E by lia;
      now rewrite ?andb_false_r.
  - unfold ws2, ws3. destruct flip.
    + rewrite !E, L by lia.
      now rewrite ?andb_false_r, ?orb_false_r, ?andb_false_r.
    + rewrite !E by lia. reflexivity.
Qed.

Lemma trim_blank (s : string) : blank s = true -> trim s = "".
Proof.
  intros H. unfold trim, trimStart, trimEnd.
  rewrite <- (append_empty_r s), (drop_ws_blank false s "" H). reflexivity.
Qed.

Lemma trim_padded (pad pad' body front rest : string) (a b : ascii) :
  blank pad = true -> blank pad' = true ->
  plain a = true -> plain b = true ->
  body = String a rest -> body = front ++ String b "" ->
  trim (pad ++ body ++ pad') = body.
Proof.
  intros Hp Hp' Ha Hb Hstart Hend. unfold trim, trimStart, trimEnd.
  rewrite (drop_ws_blank false pad _ Hp).
  rewrite Hstart at 1.
  change (String a rest ++ pad') with (String a (rest ++ pad')).
  rewrite (drop_ws_plain false a _ Ha).
  change (String a (rest ++ pad')) with (String a rest ++ pad').
  rewrite <- Hstart, reverse_append.
  rewrite drop_ws_blank by now rewrite blank_reverse.
  rewrite Hend at 1. rewrite reverse_append.
  change (reverse (String b "")) with (String b "").
  change (String b "" ++ reverse front) with (String b (reverse front)).
  rewrite (drop_ws_plain true b _ Hb).
  change (String b (reverse front)) with (reverse (String b "") ++ reverse front).
  rewrite <- reverse_append, <- Hend. apply reverse_involutive.
Qed.

(** With no file selected, the registration is the first request. *)
Lemma nofile_first_request (w : world) (st : page) :
  hd_error (files st) = None ->
  forall onSubmit base refetch,
    In (onSubmit, base, refetch) presign_variants ->
    exists tail,
      requests (log (snd (onSubmit w st)))
      = (requests (log st)
           ++ register_request base (trim (textarea st)) JNull :: tail)%list.
Proof.
  intros Hf onSubmit base refetch Hin.
  destruct (fails_or_succeeds
              (w (requests (log st))
                 (register_request base (trim (textarea st)) JNull)))
    as [(m & H) | (r & H)].
  - exists [].
    variants Hin;
      rewrite (submit_register_fails_nofile _ _ w st Hf m H); calls.
  - variants Hin.
    + exists [list_request].
      rewrite (submit_registered_nofile _ _ w st Hf r H).
      rewrite web_after_calls. calls.
    + exists [].
      rewrite (submit_registered_nofile _ _ w st Hf r H).
      rewrite prepend_after_calls. calls.
Qed.

(** X11. The handler does not refuse an empty message: when the textarea
    is empty or holds blanks only (spaces, tabs, line breaks) and no file
    is selected, the registration is still sent, as the first request,
    with the empty string as message and [image_key: null]. *)
Theorem blank_message_is_registered_empty :
  forall (w : world) (st : page),
    blank (textarea st) = true ->
    hd_error (files st) = None ->
    forall onSubmit base refetch,
      In (onSubmit, base, refetch) presign_variants ->
      exists tail,
        requests (log (snd (onSubmit w st)))
        = (requests (log st)
             ++ POST_json (base ++ "/api/posts")
                  [("message", JStr ""); ("image_key", JNull)]
             :: tail)%list.
Proof.
  intros w st Hb Hf onSubmit base refetch Hin.
  destruct (nofile_first_request w st Hf onSubmit base refetch Hin)
    as (tail & H).
  exists tail. rewrite H, (trim_blank _ Hb). reflexivity.
Qed.

Lemma blank_message_is_registered_empty_witness :
  exists tail,
    requests
      (log (snd (Prepend.onSubmit kind_world
                   (mkPage ("  " ++ nl ++ " ") [] false [] []))))
    = POST_json "/api/posts" [("message", JStr ""); ("image_key", JNull)]
      :: tail.
Proof.
  exact (blank_message_is_registered_empty kind_world
           (mkPage ("  " ++ nl ++ " ") [] false [] []) eq_refl eq_refl
           Prepend.onSubmit "" false (or_intror (or_introl eq_refl))).
Defined.

(** With a file selected, the registration is the third request, after
    a presign request that is answered and an upload that succeeds. *)
Lemma file_registration_request (w : world) (st : page) (f : file)
    (d : descriptor) (r2 : response) :
  hd_error (files st) = Some f ->
  forall onSubmit base refetch,
    In (onSubmit, base, refetch) presign_variants ->
    answers as_descriptor (w (requests (log st)) (presign_request base f)) d ->
    succeeds
      (w (requests (log st) ++ [presign_request base f])%list
         (upload_request d f)) r2 ->
    exists tail,
      requests (log (snd (onSubmit w st)))
      = (requests (log st)
           ++ presign_request base f
           :: upload_request d f
           :: register_request base (trim (textarea st)) (JStr (key d))
           :: tail)%list.
Proof.
  intros Hf onSubmit base refetch Hin H1 H2.
  destruct (fails_or_succeeds
              (w (requests (log st)
                    ++ [presign_request base f; upload_request d f])%list
                 (register_request base (trim (textarea st)) (JStr (key d)))))
    as [(m & H3) | (r3 & H3)].
  - exists [].
    variants Hin;
      rewrite (submit_register_fails _ _ w st f Hf d r2 m H1 H2 H3); calls.
  - variants Hin.
    + exists [list_request].
      rewrite (submit_registered _ _ w st f Hf d r2 r3 H1 H2 H3).
      rewrite web_after_calls. calls.
    + exists [].
      rewrite (submit_registered _ _ w st f Hf d r2 r3 H1 H2 H3).
      rewrite prepend_after_calls. calls.
Qed.

(** X12. The message that is registered is the text of the textarea
    without the blanks around it: for a text that begins and ends with an
    ASCII character that is not a blank, typed between any runs of spaces,
    tabs and line breaks, the registration carries that text, blanks
    inside it included.  This holds for the registration that is the
    first request, when no file is selected, and for the one that follows
    the upload of a file, which carries the key of the descriptor
    beside it. *)
Theorem registered_message_is_trimmed :
  forall (w : world) (st : page) (pad pad' body front rest : string)
         (a b : ascii),
    textarea st = pad ++ body ++ pad' ->
    blank pad = true -> blank pad' = true ->
    plain a = true -> plain b = true ->
    body = String a rest -> body = front ++ String b "" ->
    forall onSubmit base refetch,
      In (onSubmit, base, refetch) presign_variants ->
      (hd_error (files st) = None ->
       exists tail,
         requests (log (snd (onSubmit w st)))
         = (requests (log st)
              ++ POST_json (base ++ "/api/posts")
                   [("message", JStr body); ("image_key", JNull)]
              :: tail)%list)
      /\ (forall f d r2,
            hd_error (files st) = Some f ->
            answers as_descriptor
              (w (requests (log st)) (presign_request base f)) d ->
            succeeds
              (w (requests (log st) ++ [presign_request base f])%list
                 (upload_request d f)) r2 ->
            exists tail,
              requests (log (snd (onSubmit w st)))
              = (requests (log st)
                   ++ presign_request base f
                   :: upload_request d f
                   :: POST_json (base ++ "/api/posts")
                        [("message", JStr body); ("image_key", JStr (key d))]
                   :: tail)%list).
Proof.
  intros w st pad pad' body front rest a b Htext Hp Hp' Ha Hb Hs He
    onSubmit base refetch Hin.
  assert (Htrim : trim (textarea st) = body)
    by (rewrite Htext;
        exact (trim_padded pad pad' body front rest a b Hp Hp' Ha Hb Hs He)).
  split.
  - intros Hf.
    destruct (nofile_first_request w st Hf onSubmit base refetch Hin)
      as (tail & H).
    exists tail. rewrite H, Htrim. reflexivity.
  - intros f d r2 Hf H1 H2.
    destruct (file_registration_request w st f d r2 Hf onSubmit base refetch
                Hin H1 H2)
      as (tail & H).
    exists tail. rewrite H, Htrim. reflexivity.
Qed.

Lemma registered_message_is_trimmed_witness :
  (exists tail,
     requests (log (snd (Web.onSubmit kind_world (page_with []))))
     = POST_json "http://localhost:8000/api/posts"
         [("message", JStr "hello <b>"); ("image_key", JNull)]
       :: tail)
  /\ (exists tail,
        requests (log (snd (Prepend.onSubmit kind_world
                              (page_with [sample_file]))))
        = presign_request "" sample_file
          :: upload_request sample_descriptor sample_file
          :: POST_json "/api/posts"
               [ ("message", JStr "hello <b>");
                 ("image_key", JStr "uploads/cat.png") ]
          :: tail).
Proof.
  split.
  - exact (proj1 (registered_message_is_trimmed kind_world (page_with [])
                    "  " "  " "hello <b>" "hello <b" "ello <b>" "h" ">"
                    eq_refl eq_refl eq_refl eq_refl eq_refl eq_refl eq_refl
                    Web.onSubmit Web.API_BASE true (or_introl eq_refl))
             eq_refl).
  - apply (proj2 (registered_message_is_trimmed kind_world
                    (page_with [sample_file])
                    "  " "  " "hello <b>" "hello <b" "ello <b>" "h" ">"
                    eq_refl eq_refl eq_refl eq_refl eq_refl eq_refl eq_refl
                    Prepend.onSubmit "" false (or_intror (or_introl eq_refl)))
             sample_file sample_descriptor (answer 200 "ok") eq_refl).
    + exists (answer 200 "ok"). repeat split.
    + split; reflexivity.
Defined.

(** ** The handlers that send the form (part_000 31-46 and 199-214) *)

Lemma alerts_of_app (l1 l2 : list event) :
  alerts (l1 ++ l2) = (alerts l1 ++ alerts l2)%list.
Proof.
  induction l1 as [|[rq | m] l1 IH]; cbn; [reflexivity | exact IH |].
  now rewrite IH.
Qed.

Section SendingTheForm.

Variable entries : page -> FormData.
Variable getPosts : M unit.
Variable w : world.
Variable st : page.

Let rq : request := POST_form "/api/posts" (entries st).

Ltac run :=
  repeat progress
    unfold Multipart.onSubmit_calling, Multipart.new_FormData, bind, fetch,
      alert, form_reset, detach, record;
  cbn [log textarea files disabled list_view fst snd negb].

Lemma form_refused (r : response) :
  w (requests (log st)) rq = Resolves r -> ok r = false ->
  Multipart.onSubmit_calling entries getPosts w st
  = (Return tt,
     mkPage (textarea st) (files st) (disabled st) (list_view st)
       (log st ++ [Fetch rq; Alert ("上傳失敗 " ++ text r)])%list).
Proof.
  intros H Hok. unfold rq in *. run. rewrite H.
  cbn [log textarea files disabled list_view fst snd negb].
  rewrite Hok. cbn [log textarea files disabled list_view fst snd negb].
  now rewrite <- app_assoc.
Qed.

Lemma form_rejected (m : string) :
  w (requests (log st)) rq = Rejects m ->
  Multipart.onSubmit_calling entries getPosts w st
  = (Throw m,
     mkPage (textarea st) (files st) (disabled st) (list_view st)
       (log st ++ [Fetch rq])%list).
Proof.
  intros H. unfold rq in *. run. now rewrite H.
Qed.

Lemma form_accepted (r : response) :
  succeeds (w (requests (log st)) rq) r ->
  Multipart.onSubmit_calling entries getPosts w st
  = (Return tt,
     snd (getPosts w
            (mkPage "" [] (disabled st) (list_view st)
               (log st ++ [Fetch rq])%list))).
Proof.
  intros [H Hok]. unfold rq in *. run. rewrite H.
  cbn [log textarea files disabled list_view fst snd negb].
  now rewrite Hok.
Qed.

End SendingTheForm.

(* The two copies of the handler, one after the other. *)
Ltac form_copies Hin :=
  cbn in Hin; destruct Hin as [Hin | [Hin | []]]; inversion Hin; subst;
  clear Hin; [unfold Multipart.onSubmit | unfold Multipart.onSubmit'].

(** X13. In the scripts that send the form, when the backend answers the
    submission with another status than success, the handler shows one
    alert, the text of the answer after the prefix of part_000 41 (which
    has no colon), and returns: the form keeps its text and its file, the
    list and the button are not touched and the list is not fetched. *)
Theorem form_refusal_alerts_and_keeps_form :
  forall (entries : page -> FormData) (w : world) (st : page) (r : response),
    w (requests (log st)) (POST_form "/api/posts" (entries st)) = Resolves r ->
    ok r = false ->
    forall onSubmit getPosts, In (onSubmit, getPosts) (form_variants entries) ->
      onSubmit w st
      = (Return tt,
         mkPage (textarea st) (files st) (disabled st) (list_view st)
           (log st
              ++ [ Fetch (mkRequest "/api/posts" "POST" []
                            (FormBody (entries st)));
                   Alert ("上傳失敗 " ++ text r) ])%list).
Proof.
  intros entries w st r H Hok onSubmit getPosts Hin.
  form_copies Hin; now apply form_refused.
Qed.

Lemma form_refusal_alerts_and_keeps_form_witness :
  Multipart.onSubmit sample_entries
    (world_failing_at 0 (Resolves (answer 413 "too large")))
    (page_with [sample_file])
  = (Return tt,
     mkPage "  hello <b>  " [sample_file] false ["<p>earlier</p>"]
       [ Fetch (mkRequest "/api/posts" "POST" []
                  (FormBody [ ("message", Text "  hello <b>  ");
                              ("image", Blob sample_file) ]));
         Alert "上傳失敗 too large" ]).
Proof.
  exact (form_refusal_alerts_and_keeps_form sample_entries
           (world_failing_at 0 (Resolves (answer 413 "too large")))
           (page_with [sample_file]) (answer 413 "too large") eq_refl eq_refl
           (Multipart.onSubmit sample_entries) Multipart.getPosts
           (or_introl eq_refl)).
Defined.

(** X14. The scripts that send the form have no [try] around the request:
    when the submission is rejected by the network the handler throws the
    message and shows no alert, so the user is told nothing; the form, the
    list and the button are as they were.  (The scripts with the presigned
    upload show the alert in the like case.) *)
Theorem form_rejection_is_silent :
  forall (entries : page -> FormData) (w : world) (st : page) (m : string),
    w (requests (log st)) (POST_form "/api/posts" (entries st)) = Rejects m ->
    forall onSubmit getPosts, In (onSubmit, getPosts) (form_variants entries) ->
      onSubmit w st
      = (Throw m,
         mkPage (textarea st) (files st) (disabled st) (list_view st)
           (log st ++ [Fetch (POST_form "/api/posts" (entries st))])%list)
      /\ alerts (log (snd (onSubmit w st))) = alerts (log st).
Proof.
  intros entries w st m H onSubmit getPosts Hin.
  assert (E : onSubmit w st
              = (Throw m,
                 mkPage (textarea st) (files st) (disabled st) (list_view st)
                   (log st ++ [Fetch (POST_form "/api/posts" (entries st))])%list))
    by (form_copies Hin; now apply form_rejected).
  split; [exact E |].
  rewrite E. cbn [snd log]. rewrite alerts_of_app. cbn.
  now rewrite app_nil_r.
Qed.

Lemma form_rejection_is_silent_witness :
  Multipart.onSubmit' sample_entries
    (world_failing_at 0 (Rejects "Failed to fetch")) (page_with [])
  = (Throw "Failed to fetch",
     mkPage "  hello <b>  " [] false ["<p>earlier</p>"]
       [ Fetch (POST_form "/api/posts"
                  [ ("message", Text "  hello <b>  ");
                    ("image", Blob (mkFile "" "application/octet-stream" 0)) ]) ]).
Proof.
  exact (proj1 (form_rejection_is_silent sample_entries
                  (world_failing_at 0 (Rejects "Failed to fetch"))
                  (page_with []) "Failed to fetch" eq_refl
                  (Multipart.onSubmit' sample_entries) Multipart.getPosts'
                  (or_intror (or_introl eq_refl)))).
Defined.

(** X15. In the scripts that send the form, when the backend answers the
    submission with success, the form is cleared and the list is fetched
    once, by a call that is not awaited: the handler returns normally
    whatever that fetch does, with no alert, and the page ends as its copy
    of [getPosts] leaves the cleared page.  The request carries the entries
    of the form and the button is not touched. *)
Theorem form_success_resets_and_refetches :
  forall (entries : page -> FormData) (w : world) (st : page) (r : response),
    succeeds (w (requests (log st)) (POST_form "/api/posts" (entries st))) r ->
    forall onSubmit getPosts, In (onSubmit, getPosts) (form_variants entries) ->
      onSubmit w st
      = (Return tt,
         snd (getPosts w
                (mkPage "" [] (disabled st) (list_view st)
                   (log st ++ [Fetch (POST_form "/api/posts" (entries st))])%list)))
      /\ textarea (snd (onSubmit w st)) = ""
      /\ files (snd (onSubmit w st)) = []
      /\ disabled (snd (onSubmit w st)) = disabled st
      /\ log (snd (onSubmit w st))
         = (log st
              ++ [ Fetch (POST_form "/api/posts" (entries st));
                   Fetch list_request ])%list.
Proof.
  intros entries w st r Hs onSubmit getPosts Hin.
  assert (Hg : exists ph, getPosts = getPosts_with ph
               /\ onSubmit = Multipart.onSubmit_calling entries getPosts).
  { cbn in Hin. destruct Hin as [E | [E | []]]; inversion E; subst;
      eexists; split; reflexivity. }
  destruct Hg as (ph & -> & ->).
  rewrite (form_accepted entries _ w st r Hs).
  split; [reflexivity |]. cbn [snd].
  set (st1 := mkPage "" [] (disabled st) (list_view st)
                (log st ++ [Fetch (POST_form "/api/posts" (entries st))])%list).
  destruct (w (requests (log st1)) list_request) as [m | r'] eqn:Hget.
  { rewrite (getPosts_throws ph w st1 m (or_introl Hget)). cbn [snd].
    unfold st1. cbn. now rewrite <- app_assoc. }
  destruct (ok r') eqn:Hok.
  - destruct (reads_or_fails (as_envelope r')) as [(data & Hd) | (m & Hd)].
    + rewrite (getPosts_renders ph w st1 r' data (conj Hget Hok) Hd).
      cbn [snd]. unfold st1. cbn. now rewrite <- app_assoc.
    + rewrite (getPosts_throws ph w st1 m
                 (or_intror (ex_intro _ r' (conj (conj Hget Hok) Hd)))).
      cbn [snd]. unfold st1. cbn. now rewrite <- app_assoc.
  - rewrite (getPosts_gives_up ph w st1 r' Hget Hok).
    cbn [snd]. unfold st1. cbn. now rewrite <- app_assoc.
Qed.

Lemma form_success_resets_and_refetches_witness :
  Multipart.onSubmit sample_entries
    (world_failing_at 1 (Rejects "Failed to fetch")) (page_with [sample_file])
  = (Return tt,
     mkPage "" [] false ["<p>earlier</p>"]
       [ Fetch (POST_form "/api/posts"
                  [ ("message", Text "  hello <b>  ");
                    ("image", Blob sample_file) ]);
         Fetch list_request ]).
Proof.
  exact (proj1 (form_success_resets_and_refetches sample_entries
                  (world_failing_at 1 (Rejects "Failed to fetch"))
                  (page_with [sample_file]) (answer 200 "ok")
                  (conj eq_refl eq_refl)
                  (Multipart.onSubmit sample_entries) Multipart.getPosts
                  (or_introl eq_refl))).
Defined.

(** ** Loading, then submitting (part_000 48-168) *)

Lemma prepend_submit_succeeds (w : world) (st : page) (evs : list event)
    (r : response) (p : post) :
  registers "" w st evs r ->
  as_post r = Reads p ->
  Prepend.onSubmit w st
  = (Return tt,
     mkPage "" [] false (render_post p :: list_view st) (log st ++ evs)%list).
Proof.
  intros Hreg Hp. unfold Prepend.onSubmit.
  rewrite (submit_after _ _ w st evs r Hreg).
  now apply prepend_after_inserts.
Qed.

(** X16. Prepending shows what fetching anew would show when the backend
    lists the newest post first: after the page has loaded a collection
    and a submission has succeeded, the list holds the block of the
    created post and then the blocks loaded, and its markup is the
    rendering of the collection with the created post put first. *)
Theorem prepend_after_load_matches_refetch :
  forall (w : world) (st : page) (r0 : response) (data : list post)
         (evs : list event) (r : response) (p : post),
    succeeds (w (requests (log st)) list_request) r0 ->
    as_envelope r0 = Reads data ->
    registers "" w (snd (Prepend.onLoad w st)) evs r ->
    as_post r = Reads p ->
    list_view (snd (Prepend.onSubmit w (snd (Prepend.onLoad w st))))
    = [render_post p; render_posts data]
    /\ markup (snd (Prepend.onSubmit w (snd (Prepend.onLoad w st))))
       = render_posts (p :: data).
Proof.
  intros w st r0 data evs r p Hs Hd Hreg Hp.
  rewrite (prepend_submit_succeeds w _ evs r p Hreg Hp).
  unfold Prepend.onLoad, detach, Prepend.getPosts, markup.
  rewrite (getPosts_renders _ w st r0 data Hs Hd).
  cbn [snd list_view]. split; [reflexivity |].
  rewrite render_posts_cons. reflexivity.
Qed.

Lemma prepend_after_load_matches_refetch_witness :
  markup (snd (Prepend.onSubmit kind_world
                 (snd (Prepend.onLoad kind_world (page_with [])))))
  = render_posts [sample_post; sample_post; older_post].
Proof.
  apply (proj2 (prepend_after_load_matches_refetch kind_world (page_with [])
                  (answer 200 "ok") [sample_post; older_post]
                  [Fetch (register_request "" "hello <b>" JNull)]
                  (answer 200 "ok") sample_post
                  (conj eq_refl eq_refl) eq_refl
                  (registers_without_file "" kind_world
                     (snd (Prepend.onLoad kind_world (page_with [])))
                     (answer 200 "ok") eq_refl (conj eq_refl eq_refl))
                  eq_refl)).
Defined.

(** X17. Submissions that succeed one after the other stack their blocks
    newest first: after two of them the block of the second post stands
    before the block of the first, which stands before the blocks that
    were in the list. *)
Theorem prepend_twice_stacks_newest_first :
  forall (w : world) (st : page) (evs1 evs2 : list event) (r1 r2 : response)
         (p1 p2 : post),
    registers "" w st evs1 r1 ->
    as_post r1 = Reads p1 ->
    registers "" w (snd (Prepend.onSubmit w st)) evs2 r2 ->
    as_post r2 = Reads p2 ->
    list_view (snd (Prepend.onSubmit w (snd (Prepend.onSubmit w st))))
    = render_post p2 :: render_post p1 :: list_view st.
Proof.
  intros w st evs1 evs2 r1 r2 p1 p2 Hreg1 Hp1 Hreg2 Hp2.
  rewrite (prepend_submit_succeeds w _ evs2 r2 p2 Hreg2 Hp2).
  rewrite (prepend_submit_succeeds w st evs1 r1 p1 Hreg1 Hp1).
  reflexivity.
Qed.

Lemma prepend_twice_stacks_newest_first_witness :
  list_view
    (snd (Prepend.onSubmit
            (fun h _ =>
               Resolves (mkResponse 201 "" (Fails "") (Fails "")
                           (Reads (if Nat.eqb (List.length h) 0
                                   then older_post else sample_post))))
            (snd (Prepend.onSubmit
                    (fun h _ =>
                       Resolves (mkResponse 201 "" (Fails "") (Fails "")
                                   (Reads (if Nat.eqb (List.length h) 0
                                           then older_post else sample_post))))
                    (page_with [])))))
  = [render_post sample_post; render_post older_post; "<p>earlier</p>"].
Proof.
  apply (prepend_twice_stacks_newest_first
           (fun h _ =>
              Resolves (mkResponse 201 "" (Fails "") (Fails "")
                          (Reads (if Nat.eqb (List.length h) 0
                                  then older_post else sample_post))))
           (page_with [])
           [Fetch (register_request "" "hello <b>" JNull)]
           [Fetch (register_request "" "" JNull)]
           (mkResponse 201 "" (Fails "") (Fails "") (Reads older_post))
           (mkResponse 201 "" (Fails "") (Fails "") (Reads sample_post))
           older_post sample_post).
  - apply registers_without_file; [reflexivity | split; reflexivity].
  - reflexivity.
  - apply registers_without_file; [reflexivity | split; reflexivity].
  - reflexivity.
Defined.
